(* ===== verification/_CoqProject ===== *)
-Q . S2P
Prelude.v
Demux.v
CTypes.v
Loader.v
Utf8.v
Marshal.v
Native.v
Engine.v
Handle.v
Isolation.v
Lifecycle.v
Dispatch.v
Main.v
