(* ===== verification/Prelude.v ===== *)
(** * A verification development for the bulk_extractor Python binding

    The program is [src/python/module/modbulk_extractor.py], an 85-line
    ctypes binding that exposes the native library [libbulk_extractor.so]
    to Python.  Its parts, and how they interact:

    - the callback signature [BeCallback] (line 5): a [CFUNCTYPE] whose
      arguments are converted from C to Python ([c_int], [c_uint],
      [c_char_p], [c_size_t]) and whose Python result is converted back to
      a C [int];
    - the event demultiplexer [BulkExtractor.wrap_callback] (lines 38-47):
      tests the flag word bit by bit ([FLAG_FEATURE], [FLAG_HISTOGRAM],
      [FLAG_CARVE], lines 23-25) and calls one of three handlers, with
      [_noop_cb] (line 27) as default; [-1] when no known bit is set;
    - buffer marshaling [bulk_extractor_analyze_buf] (lines 15-19):
      encodes a [str] as UTF-8 into a [bytearray], views it as a
      [c_ubyte] array with [from_buffer] and hands pointer and length to
      the native [bulk_extractor_analyze_buf];
    - the engine handle, the class [BulkExtractor] (lines 28-56) over the
      functions [bulk_extractor_open] and [bulk_extractor_close]
      (lines 12-14, 20-21): [__init__] opens, [close] closes once and sets
      [self.handle] to [None], [__enter__]/[__exit__] make it a context
      manager, [analyze_buf] forwards to marshaling.

    Control flow: the caller wraps handlers with [wrap_callback], opens a
    [BulkExtractor] with the result, pushes buffers with [analyze_buf];
    during each native analyze call the engine calls the [BeCallback]
    trampoline zero or more times; the [with] block closes the handle.

    Files of the development (in dependency order), each one [Module]:
    - [Prelude] (this file): Python exceptions [PyExc] and the result
      monad [PyResult]; Python values [PyVal]; machine integer
      wrap-around [wrap_u]/[wrap_s] with the notations [u[w] z] and
      [s[w] z] of [be_scope]; bytes as [Byte.byte]; the hint databases
      [bex] and [bex_rw]; the tactics [be_cases], [zlia], [decide_prop].
    - [Demux]: lines 23-27 and 37-47.  [wrap_callback] is the closure,
      handlers are functions of an abstract Python state returning a
      value or raising; [spec_classify]/[spec_dispatch] are the spec's
      typed events.  Theorems: the handler each flag reaches (bit tests
      with priority feature > histogram > carve), the refinement to the
      spec on exclusive flags, and the characterisation of the flags on
      which code and spec disagree.
    - [CTypes]: line 5 and lines 8-10, 21.  The [BeCallback] trampoline
      ([convert_args] with the [strlen] read of [c_char_p], the [c_int]
      result conversion, exceptions ignored with an unset result),
      [c_void_p] conversions and ctypes' default [int] conversion of
      arguments without [argtypes].  Theorems: lengths ignored, data cut
      at a zero byte, overruns, 32-bit wrap of results and of the handle
      passed to [bulk_extractor_close], the [c_void_p] round trip.
    - [Loader]: lines 5 and 7-10: the ctypes types, the prototypes
      ([restype]/[argtypes]) the module declares, loading the library
      ([OSError] when it cannot), and the callback getters driven by the
      prototype of line 5.  Theorem: a handler receives values of the
      types line 5 declares, its [char *] slots [None] or NUL-free
      [bytes].
    - [Utf8]: CPython's strict UTF-8 encoder (line 17) with its shifts and
      masks, and a strict decoder.  Theorems: round trip, the encoder
      raises exactly on lone surrogates, one to four bytes per code point.
    - [Marshal]: lines 15-19 up to the native call ([analyze_buf_args]):
      the exact-type [str] test, [from_buffer] on each buffer kind.
      Theorems: text and its encoding give the same call, [bytes] are
      rejected, typed arrays are cut to [len] bytes, the length passed is
      the length of the data.
    - [Native]: the world the program runs in ([World]: the Python
      state, the library's state, the [CFUNCTYPE] objects with their
      reference counts, the [BulkExtractor] objects, the next address, the
      trace of library calls), the monad [M] over it with its three
      outcomes (return, raise, undefined behaviour), and the three
      [lib_be] calls.  The library is not in the repository: its contract
      is the type class [NativeLib], from the spec, and [engine_dispatch]
      its callback loop (spec section 5).
    - [Engine]: an instance [toy_native] of [NativeLib], which shows the
      contract satisfiable and gives the witnesses concrete worlds.
    - [Handle]: lines 12-21 and 28-56: [bulk_extractor_open] (the callback
      object's only reference dropped on return), the [BulkExtractor]
      methods on the object store, and the [with] statement.  Theorems:
      the session's callback is freed at once and the first callback is a
      use after free; [close] is idempotent, releases the session when the
      handle survives the 32-bit conversion and leaks it otherwise;
      [analyze_buf] after [close] and a NULL open raise nothing; [with]
      closes on every exit path.
    - [Isolation]: two [BulkExtractor] objects in one world (spec
      section 5: independent handles).  Theorems: closing an object whose
      handle survives the 32-bit conversion touches no other object and
      no other session; when the conversion maps one object's handle onto
      another's, closing the first releases the second's session and
      leaks its own, and the second object's next [analyze_buf] is
      undefined behaviour.
    - [Lifecycle]: the spec's Unopened/Open/Closed machine (section 4.4),
      [phase] read off the world, the step relation [be_step] of the
      methods; by rule induction: every step refines a spec transition, a
      closed object stays closed, an open object's handle names a live
      session; and, with the inductive [eventually] over the steps,
      liveness of closing: an object whose handle is below [2^31] can
      always be closed, one whose handle the 32-bit conversion maps to an
      unknown pointer never can.
    - [Dispatch]: one analyze call end to end, the engine's loop over
      the trampoline and [wrap_callback] with logging handlers.  Theorem:
      while the callback object is alive, events of the spec's kinds reach
      one handler each in the engine's order, each answered with 0.
    - [Main]: lines 58-83: the demo's handlers, with the output as the
      list of lines printed, and its two [with] blocks.  Theorems: the
      demo reaches the use after free on its first event, passes NULL when
      the library cannot open, on a library that reports nothing returns
      after exactly six calls (open, analyze, close, twice) with nothing
      printed, and its carve handler raises on NULL data; [run_module]
      is the execution of the file (loading, then [main] under the
      [__main__] guard).

    Bounds and fuel: no definition needs fuel; every loop ([utf8_encode],
    [utf8_decode], [cstr_read], [engine_dispatch]) is structural on a
    list.  Integers are [Z] with their C widths written out where the
    code converts them: [c_int] results and the default argument
    conversion (32 bits signed, after the 64-bit mask of
    [PyLong_AsUnsignedLongMask]), [c_void_p] (64 bits), flags tested bit
    by bit with [Z.land].  Buffers are finite lists, so [strlen] reads are
    bounded by the allocation, and reading past it is undefined
    behaviour, a value of the model.

    Not modelled: the extraction algorithms of the native engine (out of
    the spec's scope; only their contract is modelled), the formatting of
    [print] (the model keeps the values printed, in order), and the
    dynamic loader's search for the shared object (line 7): whether
    [./libbulk_extractor.so] loads is a parameter of [module_init].
    Every definition is structurally recursive or not recursive, so the
    kernel accepts it as total.  The program has no loop of its own: the
    only loop around its code is the engine's scan, whose end after a
    non-zero status is the engine's choice (spec section 5), so the
    development states no termination property of it; the model's engine
    honours the request at once ([Native.engine_dispatch]), and no theorem
    depends on that choice. *)

From stdpp Require Import base list.
From Stdlib Require Import ZArith Lia Strings.Byte.

Open Scope Z_scope.

Declare Scope be_scope.
Delimit Scope be_scope with be.

(** ** Python exceptions and results *)

(** The exceptions the modelled code can raise. *)
Inductive PyExc :=
| TypeError
| UnicodeEncodeError
| ValueError
| AttributeError
| OSError          (* [cdll.LoadLibrary] cannot load the shared object *)
| ArgumentError.   (* [ctypes.ArgumentError]: an argument of a foreign call
                      does not convert *)

#[export] Instance PyExc_eq_dec : EqDecision PyExc.
Proof. solve_decision. Defined.

(** A Python computation either returns a value or raises. *)
Inductive PyResult (A : Type) :=
| PyOk (a : A)
| PyRaise (e : PyExc).
Arguments PyOk {A} a.
Arguments PyRaise {A} e.

#[export] Instance PyResult_ret : MRet PyResult := @PyOk.
#[export] Instance PyResult_bind : MBind PyResult :=
  fun A B f r => match r with PyOk a => f a | PyRaise e => PyRaise e end.
#[export] Instance PyResult_fmap : FMap PyResult :=
  fun A B f r => match r with PyOk a => PyOk (f a) | PyRaise e => PyRaise e end.

(** The Python objects that cross the callback boundary: [None], an
    [int], or a [bytes] object (what [c_char_p] produces). *)
Inductive PyVal :=
| PyNone
| PyInt (z : Z)
| PyBytes (bs : list byte).

(** ** Machine integers *)

(** Unsigned and two's-complement wrap-around to [w] bits. *)
Definition wrap_u (w z : Z) : Z := z mod 2 ^ w.
Definition wrap_s (w z : Z) : Z := (z + 2 ^ (w - 1)) mod 2 ^ w - 2 ^ (w - 1).

(** Whether [z] is representable as a signed [w]-bit integer. *)
Definition fits_s (w z : Z) : bool := (- 2 ^ (w - 1) <=? z) && (z <? 2 ^ (w - 1)).

Notation "'u[' w ']' z" := (wrap_u w z) (at level 10, w at level 0, z at level 10) : be_scope.
Notation "'s[' w ']' z" := (wrap_s w z) (at level 10, w at level 0, z at level 10) : be_scope.

(** ** Bytes *)

Definition Z_of_byte (b : byte) : Z := Z.of_N (Byte.to_N b).

Definition byte_of_Z (z : Z) : byte :=
  match Byte.of_N (Z.to_N (z mod 256)) with Some b => b | None => Byte.x00 end.

#[export] Instance byte_eq_dec' : EqDecision byte := Byte.byte_eq_dec.

#[export] Instance PyVal_eq_dec : EqDecision PyVal.
Proof. solve_decision. Defined.

(** ** Lemmas *)

Lemma py_bind_ok {A B} (a : A) (f : A -> PyResult B) : (PyOk a ≫= f) = f a.
Proof. reflexivity. Qed.

Lemma py_bind_raise {A B} (e : PyExc) (f : A -> PyResult B) :
  (PyRaise e ≫= f) = PyRaise e.
Proof. reflexivity. Qed.

Section Wrap.
Context (w : Z) (Hw : 0 < w).

Lemma wrap_u_range z : 0 <= wrap_u w z < 2 ^ w.
Proof. unfold wrap_u. apply Z.mod_pos_bound, Z.pow_pos_nonneg; lia. Qed.

Lemma wrap_u_small z : 0 <= z < 2 ^ w -> wrap_u w z = z.
Proof. intros H. unfold wrap_u. apply Z.mod_small; lia. Qed.

Lemma pow_half : 2 ^ w = 2 * 2 ^ (w - 1).
Proof.
  rewrite <- Z.pow_succ_r by lia. f_equal. lia.
Qed.

Lemma wrap_s_range z : - 2 ^ (w - 1) <= wrap_s w z < 2 ^ (w - 1).
Proof.
  unfold wrap_s. pose proof pow_half.
  pose proof (Z.mod_pos_bound (z + 2 ^ (w - 1)) (2 ^ w)
                ltac:(apply Z.pow_pos_nonneg; lia)). lia.
Qed.

Lemma wrap_s_small z : fits_s w z = true -> wrap_s w z = z.
Proof.
  unfold fits_s, wrap_s. rewrite andb_true_iff, Z.leb_le, Z.ltb_lt.
  intros H. pose proof pow_half.
  rewrite Z.mod_small; lia.
Qed.

Lemma fits_s_wrap_s z : fits_s w (wrap_s w z) = true.
Proof.
  unfold fits_s. pose proof (wrap_s_range z).
  rewrite andb_true_iff, Z.leb_le, Z.ltb_lt. lia.
Qed.

(** Wrapping forgets multiples of [2 ^ w]. *)
Lemma wrap_s_add_mult z k : wrap_s w (z + k * 2 ^ w) = wrap_s w z.
Proof.
  unfold wrap_s.
  replace (z + k * 2 ^ w + 2 ^ (w - 1)) with (z + 2 ^ (w - 1) + k * 2 ^ w) by lia.
  rewrite Z.mod_add; [reflexivity|]. pose proof (Z.pow_pos_nonneg 2 w). lia.
Qed.
End Wrap.

Lemma Z_of_byte_range b : 0 <= Z_of_byte b < 256.
Proof. unfold Z_of_byte. pose proof (Byte.to_N_bounded b). lia. Qed.

Lemma Z_of_byte_of_Z z : Z_of_byte (byte_of_Z z) = z mod 256.
Proof.
  unfold byte_of_Z, Z_of_byte.
  pose proof (Z.mod_pos_bound z 256 ltac:(lia)).
  destruct (Byte.of_N (Z.to_N (z mod 256))) as [b|] eqn:E.
  - apply Byte.to_of_N in E. rewrite E. lia.
  - apply Byte.of_N_None_iff in E. lia.
Qed.

Lemma byte_of_Z_of_byte b : byte_of_Z (Z_of_byte b) = b.
Proof.
  unfold byte_of_Z, Z_of_byte. pose proof (Byte.to_N_bounded b).
  rewrite Z.mod_small by lia. rewrite N2Z.id, Byte.of_to_N. reflexivity.
Qed.

Lemma Z_of_byte_inj b1 b2 : Z_of_byte b1 = Z_of_byte b2 -> b1 = b2.
Proof.
  intros H. rewrite <- (byte_of_Z_of_byte b1), <- (byte_of_Z_of_byte b2), H.
  reflexivity.
Qed.

(** ** Automation *)

Create HintDb bex discriminated.
#[export] Hint Resolve wrap_u_range wrap_s_range fits_s_wrap_s Z_of_byte_range : bex.
Create Rewrite HintDb bex_rw.
#[export] Hint Rewrite @py_bind_ok @py_bind_raise Z_of_byte_of_Z byte_of_Z_of_byte : bex_rw.

(** Split every boolean test and [match] of the goal, simplifying as we go. *)
Ltac be_cases :=
  repeat (simpl in *; autorewrite with bex_rw in *; try case_match; simplify_eq).

(** [lia] after naming every quotient and remainder by a constant. *)
Ltac zlia := Z.div_mod_to_equations; lia.

(** Close a decidable proposition on closed terms by evaluation. *)
Ltac decide_prop := apply (bool_decide_unpack _); vm_compute; exact I.
