(* ===== verification/Demux.v ===== *)
(** * The event demultiplexer: [BulkExtractor.wrap_callback]

    Models lines 23-27 and 37-47 of [src/python/module/modbulk_extractor.py]:
    the flag constants, the default handler [_noop_cb] and the closure
    [callback] that [wrap_callback] builds.  Handlers are Python callables
    with side effects that may raise; they are modelled as functions of an
    abstract Python state [S] returning the new state and the object they
    return or the exception they raise ([PyResult]).

    The spec (sections 4.2 and 9) describes the closure as a dispatch over a
    tagged union of three events; [spec_dispatch] is that description and
    [wrap_callback_refines_spec] relates the two.  The code tests the flag
    bit by bit with priority feature > histogram > carve, so it agrees with
    the spec only when the flag has at most one of the three bits set, or
    none: [wrap_callback_flag3_diverges] is the counterexample. *)

From stdpp Require Import base list.
From Stdlib Require Import ZArith Lia.
From S2P Require Import Prelude.

Open Scope Z_scope.

Module Demux.

(** Lines 23-25. *)
Definition FLAG_FEATURE : Z := 1.
Definition FLAG_HISTOGRAM : Z := 2.
Definition FLAG_CARVE : Z := 4.

(** The eight Python objects the callback receives, as ctypes makes them
    from the [BeCallback] signature (line 5): [flag] and [arg] are ints,
    the four [c_char_p] slots are [bytes] or [None], the lengths ints. *)
Record CbArgs := mkCbArgs {
  flag : Z;
  arg : Z;
  recorder_name : PyVal;
  pos : PyVal;
  feature : PyVal;
  feature_len : Z;
  context : PyVal;
  context_len : Z
}.

(** Python's truth value of an [int]. *)
Definition py_truthy (z : Z) : bool := negb (z =? 0).

Section WithState.
Context {S : Type}.

(** A four-argument Python handler with side effects on [S]. *)
Definition Handler := S -> PyVal -> PyVal -> PyVal -> PyVal -> S * PyResult PyVal.

(** The eight-argument Python callable given to [BeCallback]. *)
Definition Callback := S -> CbArgs -> S * PyResult PyVal.

(** Line 27: [def _noop_cb( *args): return 0]. *)
Definition _noop_cb : Handler := fun st _ _ _ _ => (st, PyOk (PyInt 0)).

(** Lines 38-47: the closure built by [wrap_callback]. *)
Definition wrap_callback (feature_cb histogram_cb carve_cb : Handler) : Callback :=
  fun st a =>
    if py_truthy (Z.land a.(flag) FLAG_FEATURE) then
      feature_cb st a.(recorder_name) a.(pos) a.(feature) a.(context)
    else if py_truthy (Z.land a.(flag) FLAG_HISTOGRAM) then
      histogram_cb st a.(recorder_name) a.(pos) a.(feature) (PyInt a.(arg))
    else if py_truthy (Z.land a.(flag) FLAG_CARVE) then
      carve_cb st a.(recorder_name) a.(pos) a.(context) a.(feature)
    else (st, PyOk (PyInt (-1))).

End WithState.

(** ** The specification of the spec's sections 3, 4.2 and 9 *)

(** The three typed events, with the spec's field names. *)
Inductive Event :=
| FeatureEvent (recorder_name position feature_bytes context_bytes : PyVal)
| HistogramEvent (recorder_name position feature_bytes : PyVal) (count : Z)
| CarveEvent (recorder_name position carved_filename carved_data : PyVal).

#[export] Instance Event_eq_dec : EqDecision Event.
Proof. solve_decision. Defined.

(** The spec treats the flags as exclusive single-bit values: exactly the
    three constants are known kinds. *)
Definition spec_classify (a : CbArgs) : option Event :=
  if a.(flag) =? FLAG_FEATURE then
    Some (FeatureEvent a.(recorder_name) a.(pos) a.(feature) a.(context))
  else if a.(flag) =? FLAG_HISTOGRAM then
    Some (HistogramEvent a.(recorder_name) a.(pos) a.(feature) a.(arg))
  else if a.(flag) =? FLAG_CARVE then
    Some (CarveEvent a.(recorder_name) a.(pos) a.(context) a.(feature))
  else None.

Section Spec.
Context {S : Type}.

(** Routing a typed event to its handler, [-1] for no event. *)
Definition spec_dispatch (feature_cb histogram_cb carve_cb : @Handler S)
    (st : S) (e : option Event) : S * PyResult PyVal :=
  match e with
  | Some (FeatureEvent r p f c) => feature_cb st r p f c
  | Some (HistogramEvent r p f n) => histogram_cb st r p f (PyInt n)
  | Some (CarveEvent r p name data) => carve_cb st r p name data
  | None => (st, PyOk (PyInt (-1)))
  end.
End Spec.

(** Handlers that record the event they are called with and return 0:
    running [wrap_callback] with them exposes which handler it called. *)
Definition log_feature : @Handler (list Event) :=
  fun log r p f c => (log ++ [FeatureEvent r p f c], PyOk (PyInt 0)).
Definition log_histogram : @Handler (list Event) :=
  fun log r p f n =>
    (log ++ [HistogramEvent r p f (match n with PyInt k => k | _ => 0 end)], PyOk (PyInt 0)).
Definition log_carve : @Handler (list Event) :=
  fun log r p name data => (log ++ [CarveEvent r p name data], PyOk (PyInt 0)).

(** A concrete argument tuple with flag [f], used by the witnesses. *)
Definition ex_args (f : Z) : CbArgs :=
  mkCbArgs f 7 (PyBytes [Byte.x65]) (PyBytes [Byte.x30])
    (PyBytes [Byte.x61; Byte.x00; Byte.x62]) 3 (PyBytes [Byte.x63]) 1.

(** ** Lemmas on the flag tests *)

Lemma land_pow2_truthy z n :
  0 <= n -> py_truthy (Z.land z (2 ^ n)) = Z.testbit z n.
Proof.
  intros Hn. unfold py_truthy.
  destruct (Z.testbit z n) eqn:E.
  - apply negb_true_iff, Z.eqb_neq. intros H0.
    assert (Z.testbit (Z.land z (2 ^ n)) n = true) as Hb.
    { rewrite Z.land_spec, Z.pow2_bits_true by lia. rewrite E. reflexivity. }
    rewrite H0, Z.bits_0 in Hb. discriminate.
  - apply negb_false_iff, Z.eqb_eq. apply Z.bits_inj'. intros m Hm.
    rewrite Z.land_spec, Z.bits_0.
    destruct (Z.eq_dec m n) as [->|Hne].
    + rewrite E. reflexivity.
    + rewrite Z.pow2_bits_false by lia. apply andb_false_r.
Qed.

Lemma flag_feature_test z : py_truthy (Z.land z FLAG_FEATURE) = Z.testbit z 0.
Proof. apply (land_pow2_truthy z 0). lia. Qed.

Lemma flag_histogram_test z : py_truthy (Z.land z FLAG_HISTOGRAM) = Z.testbit z 1.
Proof. apply (land_pow2_truthy z 1). lia. Qed.

Lemma flag_carve_test z : py_truthy (Z.land z FLAG_CARVE) = Z.testbit z 2.
Proof. apply (land_pow2_truthy z 2). lia. Qed.

(** No known bit is set exactly when [flag & 7] is 0. *)
Lemma land_7_zero z :
  Z.land z 7 = 0 <->
  Z.testbit z 0 = false /\ Z.testbit z 1 = false /\ Z.testbit z 2 = false.
Proof.
  split.
  - intros H.
    assert (forall i, Z.testbit 7 i = true -> Z.testbit z i = false) as Hi.
    { intros i H7. rewrite <- (andb_true_r (Z.testbit z i)), <- H7.
      rewrite <- Z.land_spec, H. apply Z.bits_0. }
    repeat split; apply Hi; reflexivity.
  - intros (H0 & H1 & H2). apply Z.bits_inj'. intros m Hm.
    rewrite Z.land_spec, Z.bits_0.
    destruct (Z.lt_ge_cases m 3) as [Hlt|Hge].
    + assert (m = 0 \/ m = 1 \/ m = 2) as Hm3 by lia.
      destruct Hm3 as [ -> | [ -> | -> ] ];
        [rewrite H0 | rewrite H1 | rewrite H2]; reflexivity.
    + replace (Z.testbit 7 m) with false; [apply andb_false_r|].
      symmetry. apply (Z.bits_above_log2 7 m); [lia | simpl; lia].
Qed.

#[export] Hint Rewrite flag_feature_test flag_histogram_test flag_carve_test : bex_rw.

Section Props.
Context {S : Type} (feature_cb histogram_cb carve_cb : @Handler S).

(** [wrap_callback] with its three tests read as bit tests. *)
Lemma wrap_callback_bits st a :
  wrap_callback feature_cb histogram_cb carve_cb st a =
  if Z.testbit a.(flag) 0 then
    feature_cb st a.(recorder_name) a.(pos) a.(feature) a.(context)
  else if Z.testbit a.(flag) 1 then
    histogram_cb st a.(recorder_name) a.(pos) a.(feature) (PyInt a.(arg))
  else if Z.testbit a.(flag) 2 then
    carve_cb st a.(recorder_name) a.(pos) a.(context) a.(feature)
  else (st, PyOk (PyInt (-1))).
Proof. unfold wrap_callback. autorewrite with bex_rw. reflexivity. Qed.

(** C5: a flag with the FEATURE bit set calls the feature handler, with
    (recorder name, position, feature, context), whatever other bits
    are set, and returns what it returns. *)
Theorem wrap_callback_feature st a :
  Z.testbit a.(flag) 0 = true ->
  wrap_callback feature_cb histogram_cb carve_cb st a =
  feature_cb st a.(recorder_name) a.(pos) a.(feature) a.(context).
Proof. intros H0. rewrite wrap_callback_bits, H0. reflexivity. Qed.

(** C6: a flag with the HISTOGRAM bit and not the FEATURE bit calls the
    histogram handler with (recorder name, position, feature, count),
    the count being the auxiliary integer [arg]. *)
Theorem wrap_callback_histogram st a :
  Z.testbit a.(flag) 0 = false -> Z.testbit a.(flag) 1 = true ->
  wrap_callback feature_cb histogram_cb carve_cb st a =
  histogram_cb st a.(recorder_name) a.(pos) a.(feature) (PyInt a.(arg)).
Proof. intros H0 H1. rewrite wrap_callback_bits, H0, H1. reflexivity. Qed.

(** The CARVE branch and its swapped slots. *)
Lemma wrap_callback_carve_slots st a :
  Z.testbit a.(flag) 0 = false -> Z.testbit a.(flag) 1 = false ->
  Z.testbit a.(flag) 2 = true ->
  wrap_callback feature_cb histogram_cb carve_cb st a =
  carve_cb st a.(recorder_name) a.(pos) a.(context) a.(feature).
Proof. intros H0 H1 H2. rewrite wrap_callback_bits, H0, H1, H2. reflexivity. Qed.

(** With no known bit in the flag no handler runs and the result is [-1]. *)
Lemma wrap_callback_no_known_bit st a :
  Z.land a.(flag) 7 = 0 ->
  wrap_callback feature_cb histogram_cb carve_cb st a = (st, PyOk (PyInt (-1))).
Proof.
  intros H. apply land_7_zero in H as (H0 & H1 & H2).
  rewrite wrap_callback_bits, H0, H1, H2. reflexivity.
Qed.

(** C7: a flag with the CARVE bit and neither of the two others calls
    the carve handler with the context slot as file name and the feature
    slot as carved data: the slots are swapped relative to FEATURE. *)
Theorem wrap_callback_carve st a :
  Z.testbit a.(flag) 0 = false -> Z.testbit a.(flag) 1 = false ->
  Z.testbit a.(flag) 2 = true ->
  wrap_callback feature_cb histogram_cb carve_cb st a =
  carve_cb st a.(recorder_name) a.(pos) a.(context) a.(feature).
Proof. apply wrap_callback_carve_slots. Qed.

(** C8: a flag with none of the three bits set calls no handler, leaves
    the Python state as it was and returns [-1]. *)
Theorem wrap_callback_unhandled st a :
  Z.land a.(flag) 7 = 0 ->
  wrap_callback feature_cb histogram_cb carve_cb st a = (st, PyOk (PyInt (-1))).
Proof. apply wrap_callback_no_known_bit. Qed.

Lemma spec_classify_unhandled a :
  Z.land a.(flag) 7 = 0 -> spec_classify a = None.
Proof.
  intros H. unfold spec_classify.
  destruct (Z.eqb_spec a.(flag) FLAG_FEATURE) as [E|_]; [rewrite E in H; discriminate|].
  destruct (Z.eqb_spec a.(flag) FLAG_HISTOGRAM) as [E|_]; [rewrite E in H; discriminate|].
  destruct (Z.eqb_spec a.(flag) FLAG_CARVE) as [E|_]; [rewrite E in H; discriminate|].
  reflexivity.
Qed.

(** On exclusive flags the closure is the spec's dispatch. *)
Lemma wrap_callback_spec_dispatch st a :
  a.(flag) = FLAG_FEATURE \/ a.(flag) = FLAG_HISTOGRAM \/
  a.(flag) = FLAG_CARVE \/ Z.land a.(flag) 7 = 0 ->
  wrap_callback feature_cb histogram_cb carve_cb st a =
  spec_dispatch feature_cb histogram_cb carve_cb st (spec_classify a).
Proof.
  intros [E|[E|[E|E]]].
  - rewrite wrap_callback_bits. unfold spec_classify. rewrite E. reflexivity.
  - rewrite wrap_callback_bits. unfold spec_classify. rewrite E. reflexivity.
  - rewrite wrap_callback_bits. unfold spec_classify. rewrite E. reflexivity.
  - rewrite spec_classify_unhandled, wrap_callback_no_known_bit by exact E.
    reflexivity.
Qed.

(** C4 (refinement): on the flags the spec considers, the three
    constants and the flags with none of their bits, the closure is the
    spec's dispatch over typed events: it calls the handler of the
    event [spec_classify] builds, or returns [-1] when there is none. *)
Theorem wrap_callback_refines_spec st a :
  a.(flag) = FLAG_FEATURE \/ a.(flag) = FLAG_HISTOGRAM \/
  a.(flag) = FLAG_CARVE \/ Z.land a.(flag) 7 = 0 ->
  wrap_callback feature_cb histogram_cb carve_cb st a =
  spec_dispatch feature_cb histogram_cb carve_cb st (spec_classify a).
Proof. apply wrap_callback_spec_dispatch. Qed.

End Props.

(** The default handler answers 0 and leaves the state alone. *)
Lemma wrap_callback_noop_bits {S} (st : S) a :
  wrap_callback _noop_cb _noop_cb _noop_cb st a =
  (st, PyOk (PyInt (if Z.testbit a.(flag) 0 || Z.testbit a.(flag) 1 || Z.testbit a.(flag) 2
                    then 0 else -1))).
Proof.
  rewrite wrap_callback_bits. unfold _noop_cb.
  destruct (Z.testbit a.(flag) 0), (Z.testbit a.(flag) 1), (Z.testbit a.(flag) 2);
    reflexivity.
Qed.

Lemma land_7_eqb z :
  (Z.land z 7 =? 0) = negb (Z.testbit z 0 || Z.testbit z 1 || Z.testbit z 2).
Proof.
  apply eq_iff_eq_true. rewrite Z.eqb_eq, land_7_zero, negb_true_iff,
    !orb_false_iff. tauto.
Qed.

(** With all three handlers left to their default,
    the closure never changes the Python state and answers 0 on every
    flag with a known bit, [-1] on the others. *)
Theorem wrap_callback_all_defaults {S} (st : S) a :
  wrap_callback _noop_cb _noop_cb _noop_cb st a =
  (st, PyOk (PyInt (if Z.land a.(flag) 7 =? 0 then -1 else 0))).
Proof.
  rewrite wrap_callback_noop_bits, land_7_eqb.
  destruct (_ || _); reflexivity.
Qed.

(** With handlers that log their call, one run
    of the closure appends exactly one event to the log when the flag has
    a known bit and none otherwise, and the events already logged stay. *)
Theorem wrap_callback_calls_at_most_one (log : list Event) a :
  exists new,
    fst (wrap_callback log_feature log_histogram log_carve log a) = log ++ new /\
    length new = (if Z.land a.(flag) 7 =? 0 then 0%nat else 1%nat).
Proof.
  rewrite wrap_callback_bits, land_7_eqb.
  destruct (Z.testbit a.(flag) 0), (Z.testbit a.(flag) 1), (Z.testbit a.(flag) 2);
    simpl; first [ exists []; rewrite app_nil_r; split; reflexivity
                 | eexists; split; reflexivity ].
Qed.

(** C9 (divergence, characterised): the handler the closure calls is the
    one the spec's classification names exactly when the flag is one of
    the three constants or has none of their bits; a flag such as 3 or
    [0x11] is routed to the feature handler where the spec expects [-1]. *)
Theorem wrap_callback_agrees_with_spec_iff a :
  fst (wrap_callback log_feature log_histogram log_carve [] a) =
    fst (spec_dispatch log_feature log_histogram log_carve [] (spec_classify a))
  <-> a.(flag) = FLAG_FEATURE \/ a.(flag) = FLAG_HISTOGRAM \/
      a.(flag) = FLAG_CARVE \/ Z.land a.(flag) 7 = 0.
Proof.
  split; [|intros H; rewrite wrap_callback_spec_dispatch by exact H; reflexivity].
  rewrite wrap_callback_bits, land_7_zero. unfold spec_classify.
  destruct (Z.eqb_spec a.(flag) FLAG_FEATURE); [auto|].
  destruct (Z.eqb_spec a.(flag) FLAG_HISTOGRAM); [auto|].
  destruct (Z.eqb_spec a.(flag) FLAG_CARVE); [auto|].
  destruct (Z.testbit a.(flag) 0), (Z.testbit a.(flag) 1), (Z.testbit a.(flag) 2);
    simpl; intros; try discriminate; tauto.
Qed.

(** The flag 3 (FEATURE and HISTOGRAM bits): the closure calls the
    feature handler, where the spec's classification has no event. *)
Example wrap_callback_flag3_diverges :
  fst (wrap_callback log_feature log_histogram log_carve [] (ex_args 3)) =
    [FeatureEvent (PyBytes [Byte.x65]) (PyBytes [Byte.x30])
       (PyBytes [Byte.x61; Byte.x00; Byte.x62]) (PyBytes [Byte.x63])] /\
  spec_dispatch log_feature log_histogram log_carve [] (spec_classify (ex_args 3)) =
    ([], PyOk (PyInt (-1))).
Proof. split; reflexivity. Qed.

(** ** Witnesses *)

Lemma wrap_callback_feature_witness :
  Z.testbit (ex_args 5).(flag) 0 = true /\
  wrap_callback log_feature log_histogram log_carve [] (ex_args 5) =
    log_feature [] (PyBytes [Byte.x65]) (PyBytes [Byte.x30])
      (PyBytes [Byte.x61; Byte.x00; Byte.x62]) (PyBytes [Byte.x63]).
Proof. split; [reflexivity|]. apply wrap_callback_feature. reflexivity. Defined.

Lemma wrap_callback_histogram_witness :
  Z.testbit (ex_args 6).(flag) 0 = false /\ Z.testbit (ex_args 6).(flag) 1 = true /\
  wrap_callback log_feature log_histogram log_carve [] (ex_args 6) =
    log_histogram [] (PyBytes [Byte.x65]) (PyBytes [Byte.x30])
      (PyBytes [Byte.x61; Byte.x00; Byte.x62]) (PyInt 7).
Proof.
  split; [reflexivity|]. split; [reflexivity|].
  apply wrap_callback_histogram; reflexivity.
Defined.

Lemma wrap_callback_carve_witness :
  Z.testbit (ex_args 4).(flag) 0 = false /\ Z.testbit (ex_args 4).(flag) 1 = false /\
  Z.testbit (ex_args 4).(flag) 2 = true /\
  wrap_callback log_feature log_histogram log_carve [] (ex_args 4) =
    log_carve [] (PyBytes [Byte.x65]) (PyBytes [Byte.x30]) (PyBytes [Byte.x63])
      (PyBytes [Byte.x61; Byte.x00; Byte.x62]).
Proof.
  split; [reflexivity|]. split; [reflexivity|]. split; [reflexivity|].
  apply wrap_callback_carve; reflexivity.
Defined.

Lemma wrap_callback_unhandled_witness :
  Z.land (ex_args 8).(flag) 7 = 0 /\
  wrap_callback log_feature log_histogram log_carve [] (ex_args 8) = ([], PyOk (PyInt (-1))).
Proof. split; [reflexivity|]. apply wrap_callback_unhandled. reflexivity. Defined.

Lemma wrap_callback_refines_spec_witness :
  (ex_args 4).(flag) = FLAG_CARVE /\
  wrap_callback log_feature log_histogram log_carve [] (ex_args 4) =
    spec_dispatch log_feature log_histogram log_carve [] (spec_classify (ex_args 4)).
Proof.
  split; [reflexivity|]. apply wrap_callback_refines_spec.
  right; right; left; reflexivity.
Defined.

End Demux.
