(* ===== verification/CTypes.v ===== *)
(** * The ctypes boundary: [BeCallback] and the foreign-function declarations

    Models what ctypes does at the boundary declared in lines 5 and 8-10 of
    [src/python/module/modbulk_extractor.py], following CPython's
    [Modules/_ctypes]:
    - the trampoline of [BeCallback = CFUNCTYPE(c_int, c_int, c_uint,
      c_char_p, c_char_p, c_char_p, c_size_t, c_char_p, c_size_t)]
      converts each C argument to a Python object ([c_char_p] through
      [z_get]: [None] for NULL, otherwise [strlen] bytes) and the Python
      result back to a C [int] ([i_set]: mask to 64 bits, cast to [int]);
    - [bulk_extractor_open.restype = c_void_p] turns NULL into [None];
    - [bulk_extractor_analyze_buf.argtypes] declares the handle as
      [c_void_p]; [bulk_extractor_close] has no [argtypes], so a Python
      [int] handle goes through the default conversion to a C [int]
      ([ConvParam]), which libffi sign-extends into the 64-bit argument.

    C memory behind a [char *] is modelled as the list of bytes readable
    from the pointer to the end of its allocation; a read past it is
    undefined behaviour and is modelled as [None]. *)

From stdpp Require Import base list.
From Stdlib Require Import ZArith Lia Strings.Byte.
From S2P Require Import Prelude Demux.

Open Scope Z_scope.

Module CTypes.

Import Demux.

(** A C [char *]: NULL, or the bytes readable from it. *)
Inductive CPtr :=
| CNull
| CMem (readable : list byte).

(** [strlen]-bounded read: the bytes before the first NUL, [None] when no
    NUL lies inside the allocation (the read runs past it). *)
Fixpoint cstr_read (m : list byte) : option (list byte) :=
  match m with
  | [] => None
  | b :: m' => if decide (b = Byte.x00) then Some [] else cons b <$> cstr_read m'
  end.

(** [z_get], the getter of [c_char_p]. *)
Definition z_get (p : CPtr) : option PyVal :=
  match p with
  | CNull => Some PyNone
  | CMem m => PyBytes <$> cstr_read m
  end.

(** The C arguments of one call of the callback, as the native engine
    passes them (the signature of line 5). *)
Record CRawArgs := mkCRawArgs {
  c_flag : Z;
  c_arg : Z;
  c_recorder_name : CPtr;
  c_pos : CPtr;
  c_feature : CPtr;
  c_feature_len : Z;
  c_context : CPtr;
  c_context_len : Z
}.

(** The trampoline's argument conversion: [c_int], [c_uint] and [c_size_t]
    become Python ints of the same value, the four [c_char_p] go through
    [z_get]. *)
Definition convert_args (c : CRawArgs) : option CbArgs :=
  r ← z_get c.(c_recorder_name);
  p ← z_get c.(c_pos);
  f ← z_get c.(c_feature);
  x ← z_get c.(c_context);
  Some (mkCbArgs c.(c_flag) c.(c_arg) r p f c.(c_feature_len) x c.(c_context_len)).

(** [i_set] for the [c_int] result: [PyLong_AsUnsignedLongMask] keeps the
    low 64 bits, the cast to [int] the low 32.  A result that is not an
    int raises inside the trampoline; ctypes reports it as ignored and the
    C caller gets an unspecified value ([None] here). *)
Definition c_int_result (v : PyVal) : option Z :=
  match v with
  | PyInt z => Some (wrap_s 32 (wrap_u 64 z))
  | _ => None
  end.

(** What the C caller of the callback observes. *)
Inductive CResult :=
| CRet (status : Z)
| CUndef.

Section Trampoline.
Context {S : Type}.

(** The [BeCallback] trampoline around a Python callable [cb]: convert the
    arguments, call, convert the result.  A [char *] read past its
    allocation is undefined behaviour before Python is reached.  When the
    callable raises, ctypes reports the exception as ignored
    ([PyErr_WriteUnraisable]) and leaves the C result slot unset: the
    caller gets no defined status. *)
Definition trampoline (cb : @Callback S) (st : S) (c : CRawArgs) : S * CResult :=
  match convert_args c with
  | None => (st, CUndef)
  | Some a =>
      let '(st', r) := cb st a in
      (st', match r with
            | PyOk v => match c_int_result v with Some z => CRet z | None => CUndef end
            | PyRaise _ => CUndef
            end)
  end.

End Trampoline.

(** A handle as Python holds it: [None] or an int.  [self.handle] and the
    result of [bulk_extractor_open] have this type. *)
Abbreviation PyHandle := (option Z).

(** [restype = c_void_p]: a NULL result is [None], any other address the
    Python int of the same value. *)
Definition c_void_p_ret (addr : Z) : PyHandle :=
  if decide (addr = 0) then None else Some addr.

(** [c_void_p.from_param] ([PyLong_AsVoidPtr]) for an [argtypes] slot:
    [None] is NULL, an int in the range of a 64-bit pointer passes
    unchanged, a negative int that fits a C [long] is taken modulo [2^64];
    on any other int the [OverflowError] of the conversion reaches the
    caller of the foreign function as [ctypes.ArgumentError]. *)
Definition c_void_p_arg (v : PyHandle) : PyResult Z :=
  match v with
  | None => PyOk 0
  | Some z =>
      if decide (0 <= z < 2 ^ 64) then PyOk z
      else if decide (- 2 ^ 63 <= z < 0) then PyOk (wrap_u 64 z)
      else PyRaise ArgumentError
  end.

(** [ConvParam] for an int argument without [argtypes]: the value, read
    with [PyLong_AsUnsignedLong] (or [PyLong_AsLong] when negative), is
    stored in the [int] field of the argument union (its low 32 bits) and
    passed as [ffi_type_sint], which libffi sign-extends into the 64-bit
    register the callee reads as a pointer.  [None] is NULL; an int
    outside the C [long]/[unsigned long] range fails to convert, which the
    call reports as [ctypes.ArgumentError]. *)
Definition default_arg (v : PyHandle) : PyResult Z :=
  match v with
  | None => PyOk 0
  | Some z =>
      if decide (- 2 ^ 63 <= z < 2 ^ 64) then PyOk (wrap_u 64 (wrap_s 32 z))
      else PyRaise ArgumentError
  end.

(** NUL-terminated C strings used by the witnesses. *)
Definition ex_recorder : CPtr := CMem [Byte.x72; Byte.x00].
Definition ex_pos : CPtr := CMem [Byte.x30; Byte.x00].
Definition ex_ctx : CPtr := CMem [Byte.x66; Byte.x00].

(** ** [c_char_p] reads *)

Lemma cstr_read_nul_free pre post :
  Byte.x00 ∉ pre -> cstr_read (pre ++ Byte.x00 :: post) = Some pre.
Proof.
  induction pre as [|b pre IH]; intros Hnot; simpl; [reflexivity|].
  rewrite not_elem_of_cons in Hnot. destruct Hnot as [Hb Hpre].
  rewrite decide_False by congruence. rewrite IH by exact Hpre. reflexivity.
Qed.

(** What a [strlen]-bounded read returns holds no NUL. *)
Lemma cstr_read_no_nul m bs : cstr_read m = Some bs -> Byte.x00 ∉ bs.
Proof.
  revert bs. induction m as [|b m IH]; intros bs; simpl; [discriminate|].
  case_decide as Hb; [intros E; injection E as <-; apply not_elem_of_nil|].
  destruct (cstr_read m) as [bs'|] eqn:E; simpl; [|discriminate].
  intros E'; injection E' as <-. rewrite not_elem_of_cons. split; [congruence|].
  apply IH. reflexivity.
Qed.

(** A [char *] with no NUL byte inside its allocation is read past it. *)
Lemma cstr_read_overrun m : Byte.x00 ∉ m -> cstr_read m = None.
Proof.
  induction m as [|b m IH]; intros Hnot; simpl; [reflexivity|].
  rewrite not_elem_of_cons in Hnot. destruct Hnot as [Hb Hm].
  rewrite decide_False by congruence. rewrite IH by exact Hm. reflexivity.
Qed.

(** C29 (characterisation): [c_char_p] hands Python exactly the bytes of
    a span [data] iff [data] has no NUL byte and the byte just after the
    span is NUL; a span with an embedded zero is cut at the first one. *)
Theorem z_get_exact_iff data rest :
  z_get (CMem (data ++ rest)) = Some (PyBytes data) <->
  (Byte.x00 ∉ data) /\ head rest = Some Byte.x00.
Proof.
  unfold z_get. split.
  - revert rest. induction data as [|b data IH]; intros rest H; simpl in H.
    + destruct rest as [|b rest]; simpl in H; [discriminate|].
      case_decide; [subst; split; [apply not_elem_of_nil | reflexivity]|].
      destruct (cstr_read rest); discriminate.
    + case_decide; [discriminate|].
      destruct (cstr_read (data ++ rest)) eqn:E; simplify_eq/=.
      destruct (IH rest) as [Hd Hr]; [rewrite E; reflexivity|].
      split; [|exact Hr]. apply not_elem_of_cons. split; [congruence | exact Hd].
  - intros [Hd Hr]. destruct rest as [|b rest]; simplify_eq/=.
    rewrite cstr_read_nul_free by exact Hd. reflexivity.
Qed.

(** ** Integer conversions *)

Lemma wrap_s_32_wrap_u_64 z : wrap_s 32 (wrap_u 64 z) = wrap_s 32 z.
Proof.
  unfold wrap_u. rewrite Z.mod_eq by lia.
  replace (z - 2 ^ 64 * (z / 2 ^ 64)) with (z + (- (z / 2 ^ 64) * 2 ^ 32) * 2 ^ 32)
    by (change (2 ^ 64) with (2 ^ 32 * 2 ^ 32); lia).
  apply wrap_s_add_mult. lia.
Qed.

Lemma wrap_u64_s32_id h :
  0 <= h < 2 ^ 64 ->
  (wrap_u 64 (wrap_s 32 h) = h <-> h < 2 ^ 31 \/ 2 ^ 64 - 2 ^ 31 <= h).
Proof.
  intros H. unfold wrap_s, wrap_u. change (32 - 1) with 31.
  set (v := (h + 2 ^ 31) mod 2 ^ 32).
  assert (h + 2 ^ 31 = 2 ^ 32 * ((h + 2 ^ 31) / 2 ^ 32) + v) by (apply Z.div_mod; lia).
  pose proof (Z.mod_pos_bound (h + 2 ^ 31) (2 ^ 32) ltac:(lia)).
  set (w := (v - 2 ^ 31) mod 2 ^ 64).
  assert (v - 2 ^ 31 = 2 ^ 64 * ((v - 2 ^ 31) / 2 ^ 64) + w) by (apply Z.div_mod; lia).
  pose proof (Z.mod_pos_bound (v - 2 ^ 31) (2 ^ 64) ltac:(lia)).
  split; [intros E | intros [E|E]]; lia.
Qed.

(** C39 (bounds): the callback's Python result reaches the engine as its
    two's-complement residue on 32 bits, which is the result itself exactly
    when it fits a C [int]; a handler returning [2^32] asks to continue. *)
Theorem c_int_result_wraps z :
  c_int_result (PyInt z) = Some (wrap_s 32 z) /\
  (wrap_s 32 z = z <-> - 2 ^ 31 <= z < 2 ^ 31).
Proof.
  split; [simpl; rewrite wrap_s_32_wrap_u_64; reflexivity|].
  split.
  - intros <-. apply (wrap_s_range 32). lia.
  - intros H. apply wrap_s_small; [lia|].
    unfold fits_s. apply andb_true_iff. rewrite Z.leb_le, Z.ltb_lt. simpl. lia.
Qed.

(** An address returned by [bulk_extractor_open]
    ([restype = c_void_p]) comes back unchanged through the [c_void_p]
    argument of [bulk_extractor_analyze_buf]; NULL comes back as NULL. *)
Theorem c_void_p_roundtrip addr :
  0 <= addr < 2 ^ 64 -> c_void_p_arg (c_void_p_ret addr) = PyOk addr.
Proof.
  intros H. unfold c_void_p_ret. case_decide; simpl; [subst; reflexivity|].
  rewrite decide_True by exact H. reflexivity.
Qed.

(** When the default conversion keeps a 64-bit handle intact. *)
Lemma default_arg_intact_iff h :
  0 <= h < 2 ^ 64 ->
  (default_arg (Some h) = PyOk h <-> h < 2 ^ 31 \/ 2 ^ 64 - 2 ^ 31 <= h).
Proof.
  intros H. simpl. rewrite decide_True by lia.
  rewrite <- wrap_u64_s32_id by exact H.
  split; [intros E; injection E as E; exact E | intros E; rewrite E; reflexivity].
Qed.

(** C27 (code bug: handle truncation): [bulk_extractor_close] has no
    [argtypes], so the handle reaches the native function unchanged only
    when it lies in the lowest or the highest [2^31] addresses; any other
    64-bit address, such as a heap pointer above 4 GiB, is replaced by the
    sign extension of its low 32 bits. *)
Theorem default_arg_handle_iff h :
  0 <= h < 2 ^ 64 ->
  (default_arg (Some h) = PyOk h <-> h < 2 ^ 31 \/ 2 ^ 64 - 2 ^ 31 <= h).
Proof. apply default_arg_intact_iff. Qed.

(** ** The trampoline around [wrap_callback] *)

Section WrapTrampoline.
Context {S : Type} (feature_cb histogram_cb carve_cb : @Handler S).

(** C24 (code bug: lengths ignored): the engine's [feature_len] and
    [context_len] never influence what the handlers see or what the
    trampoline returns: the spans are read as NUL-terminated strings. *)
Theorem trampoline_ignores_lengths st fl ar rn ps ft ct l1 l2 l1' l2' :
  trampoline (wrap_callback feature_cb histogram_cb carve_cb) st
    (mkCRawArgs fl ar rn ps ft l1 ct l2) =
  trampoline (wrap_callback feature_cb histogram_cb carve_cb) st
    (mkCRawArgs fl ar rn ps ft l1' ct l2').
Proof.
  unfold trampoline, convert_args. simpl.
  destruct (z_get rn), (z_get ps), (z_get ft), (z_get ct); reflexivity.
Qed.

(** C33 (code bug: overrun): a feature span with no NUL byte in its
    allocation makes the trampoline read past it; no handler runs and the
    engine gets no defined status, whatever the flag. *)
Theorem trampoline_overrun st fl ar rn ps m ct l1 l2 :
  Byte.x00 ∉ m ->
  trampoline (wrap_callback feature_cb histogram_cb carve_cb) st
    (mkCRawArgs fl ar rn ps (CMem m) l1 ct l2) = (st, CUndef).
Proof.
  intros Hm. unfold trampoline, convert_args. simpl.
  rewrite cstr_read_overrun by exact Hm.
  destruct (z_get rn), (z_get ps); reflexivity.
Qed.

(** An event whose flag has none of the three bits makes
    the engine see the status [-1], with the Python state unchanged. *)
Theorem trampoline_unhandled st fl ar rn ps ft ct l1 l2 r p f x :
  Z.land fl 7 = 0 ->
  z_get rn = Some r -> z_get ps = Some p -> z_get ft = Some f -> z_get ct = Some x ->
  trampoline (wrap_callback feature_cb histogram_cb carve_cb) st
    (mkCRawArgs fl ar rn ps ft l1 ct l2) = (st, CRet (-1)).
Proof.
  intros H7 Hr Hp Hf Hx. unfold trampoline, convert_args. simpl.
  rewrite Hr, Hp, Hf, Hx. simpl.
  rewrite (wrap_callback_no_known_bit feature_cb histogram_cb carve_cb) by exact H7.
  reflexivity.
Qed.

End WrapTrampoline.

(** C23 (code bug: carved data truncated): a carve event whose data span
    contains a zero byte reaches the carve handler cut before that byte;
    the bytes after it, and the span's length, are lost. *)
Theorem trampoline_carve_truncates log fl ar rn ps pre post ct l1 l2 r p x :
  Z.testbit fl 0 = false -> Z.testbit fl 1 = false -> Z.testbit fl 2 = true ->
  z_get rn = Some r -> z_get ps = Some p -> z_get ct = Some x ->
  Byte.x00 ∉ pre ->
  trampoline (wrap_callback log_feature log_histogram log_carve) log
    (mkCRawArgs fl ar rn ps (CMem (pre ++ Byte.x00 :: post)) l1 ct l2) =
  (log ++ [CarveEvent r p x (PyBytes pre)], CRet 0).
Proof.
  intros H0 H1 H2 Hr Hp Hx Hpre. unfold trampoline, convert_args. simpl.
  rewrite Hr, Hp, cstr_read_nul_free, Hx by exact Hpre. simpl.
  rewrite (wrap_callback_carve_slots log_feature log_histogram log_carve) by assumption.
  reflexivity.
Qed.

(** ** Witnesses *)

Lemma c_void_p_roundtrip_witness :
  0 <= 140737488355328 < 2 ^ 64 /\
  c_void_p_arg (c_void_p_ret 140737488355328) = PyOk 140737488355328.
Proof. split; [lia|]. apply c_void_p_roundtrip. lia. Defined.

(** A heap address above 4 GiB is not passed intact to [bulk_extractor_close]. *)
Lemma default_arg_handle_iff_witness :
  0 <= 94489280512 < 2 ^ 64 /\
  ~ (default_arg (Some 94489280512) = PyOk 94489280512).
Proof.
  split; [lia|]. rewrite default_arg_handle_iff by lia. lia.
Defined.

Lemma trampoline_overrun_witness :
  (Byte.x00 ∉ [Byte.x61; Byte.x62]) /\
  trampoline (wrap_callback log_feature log_histogram log_carve) []
    (mkCRawArgs 1 0 ex_recorder ex_pos (CMem [Byte.x61; Byte.x62]) 2 ex_ctx 1) =
  ([], CUndef).
Proof. split; [decide_prop|]. apply trampoline_overrun. decide_prop. Defined.

Lemma trampoline_unhandled_witness :
  Z.land 8 7 = 0 /\ z_get ex_recorder = Some (PyBytes [Byte.x72]) /\
  z_get ex_pos = Some (PyBytes [Byte.x30]) /\ z_get CNull = Some PyNone /\
  z_get ex_ctx = Some (PyBytes [Byte.x66]) /\
  trampoline (wrap_callback log_feature log_histogram log_carve) []
    (mkCRawArgs 8 0 ex_recorder ex_pos CNull 0 ex_ctx 1) = ([], CRet (-1)).
Proof.
  do 5 (split; [reflexivity|]).
  eapply trampoline_unhandled; reflexivity.
Defined.

Lemma trampoline_carve_truncates_witness :
  Z.testbit 4 0 = false /\ Z.testbit 4 1 = false /\ Z.testbit 4 2 = true /\
  z_get ex_recorder = Some (PyBytes [Byte.x72]) /\
  z_get ex_pos = Some (PyBytes [Byte.x30]) /\
  z_get ex_ctx = Some (PyBytes [Byte.x66]) /\
  (Byte.x00 ∉ [Byte.x50; Byte.x4b]) /\
  trampoline (wrap_callback log_feature log_histogram log_carve) []
    (mkCRawArgs 4 0 ex_recorder ex_pos
       (CMem ([Byte.x50; Byte.x4b] ++ Byte.x00 :: [Byte.x03; Byte.x04])) 5 ex_ctx 1) =
  ([] ++ [CarveEvent (PyBytes [Byte.x72]) (PyBytes [Byte.x30]) (PyBytes [Byte.x66])
      (PyBytes [Byte.x50; Byte.x4b])], CRet 0).
Proof.
  do 6 (split; [reflexivity|]). split; [decide_prop|].
  apply trampoline_carve_truncates; try reflexivity. decide_prop.
Defined.

End CTypes.
