(* ===== verification/Loader.v ===== *)
(** * The foreign declarations of the module and its initialisation

    Models lines 5 and 7-10 of [src/python/module/modbulk_extractor.py]:
    the ctypes types the module names ([CType]), a foreign function's
    prototype ([Proto]: its [restype] and [argtypes]), the callback type
    [BeCallback] of line 5, the loading of the shared object (line 7,
    which raises [OSError] when the file cannot be loaded from the working
    directory), and the three assignments of lines 8-10, which set the
    prototypes of [bulk_extractor_open] and [bulk_extractor_analyze_buf];
    [bulk_extractor_close] keeps ctypes' default prototype.

    ctypes converts the C arguments of a callback into Python objects by
    the getters of the argument types its prototype declares;
    [callback_values] is that generic conversion, driven by the
    declaration of line 5.  The theorem shows that the values a handler
    receives have the types line 5 declares: in particular the four
    [char *] slots arrive as [None] or as [bytes] with no NUL byte. *)

From stdpp Require Import base list.
From Stdlib Require Import ZArith Lia Strings.Byte.
From S2P Require Import Prelude Demux CTypes.

Open Scope Z_scope.

Module Loader.

Import Demux CTypes.

(** The ctypes types of lines 5, 8-10. *)
Inductive CType :=
| c_int
| c_uint
| c_char_p
| c_size_t
| c_void_p
| POINTER_c_ubyte   (* [POINTER(c_ubyte)] *)
| BeCallback_t.     (* the [CFUNCTYPE] type of line 5 *)

#[export] Instance CType_eq_dec : EqDecision CType.
Proof. solve_decision. Defined.

(** A foreign function's prototype; [argtypes] is [None] until assigned. *)
Record Proto := mkProto { restype : CType; argtypes : option (list CType) }.

(** A function attribute of a [CDLL] before any assignment. *)
Definition default_proto : Proto := mkProto c_int None.

(** Line 5: [CFUNCTYPE(c_int, c_int, c_uint, c_char_p, c_char_p, c_char_p,
    c_size_t, c_char_p, c_size_t)]. *)
Definition BeCallback_argtypes : list CType :=
  [c_int; c_uint; c_char_p; c_char_p; c_char_p; c_size_t; c_char_p; c_size_t].

Definition BeCallback : Proto := mkProto c_int (Some BeCallback_argtypes).

(** The functions of [lib_be] the module calls, with their prototypes. *)
Record LibBe := mkLibBe { fn_open : Proto; fn_analyze : Proto; fn_close : Proto }.

Definition set_restype (t : CType) (p : Proto) : Proto := mkProto t p.(argtypes).
Definition set_argtypes (ts : list CType) (p : Proto) : Proto := mkProto p.(restype) (Some ts).
Definition update_open (f : Proto -> Proto) (L : LibBe) : LibBe :=
  mkLibBe (f L.(fn_open)) L.(fn_analyze) L.(fn_close).
Definition update_analyze (f : Proto -> Proto) (L : LibBe) : LibBe :=
  mkLibBe L.(fn_open) (f L.(fn_analyze)) L.(fn_close).

(** Line 7: [cdll.LoadLibrary("./libbulk_extractor.so")]; [found] says
    whether the file is in the working directory and loads. *)
Definition LoadLibrary (found : bool) : PyResult LibBe :=
  if found then PyOk (mkLibBe default_proto default_proto default_proto)
  else PyRaise OSError.

(** Lines 7-10, in order. *)
Definition module_init (found : bool) : PyResult LibBe :=
  lib_be ← LoadLibrary found;
  let lib_be := update_open (set_restype c_void_p) lib_be in
  let lib_be := update_open (set_argtypes [BeCallback_t]) lib_be in
  let lib_be := update_analyze (set_argtypes [c_void_p; POINTER_c_ubyte; c_size_t]) lib_be in
  PyOk lib_be.

(** ** Callbacks: C arguments to Python *)

(** A C argument of a callback: a machine word or a [char *]. *)
Inductive CRaw :=
| RWord (z : Z)
| RPtr (p : CPtr).

(** The engine's eight arguments, in the order of line 5. *)
Definition raw_values (c : CRawArgs) : list CRaw :=
  [RWord c.(c_flag); RWord c.(c_arg); RPtr c.(c_recorder_name); RPtr c.(c_pos);
   RPtr c.(c_feature); RWord c.(c_feature_len); RPtr c.(c_context); RWord c.(c_context_len)].

(** The getter of a declared callback argument type. *)
Definition getfunc (t : CType) (v : CRaw) : option PyVal :=
  match t, v with
  | c_int, RWord z | c_uint, RWord z | c_size_t, RWord z => Some (PyInt z)
  | c_char_p, RPtr p => z_get p
  | _, _ => None
  end.

Fixpoint getfuncs (ts : list CType) (vs : list CRaw) : option (list PyVal) :=
  match ts, vs with
  | [], [] => Some []
  | t :: ts', v :: vs' => x ← getfunc t v; xs ← getfuncs ts' vs'; Some (x :: xs)
  | _, _ => None
  end.

(** The Python arguments a [CFUNCTYPE] of prototype [p] builds. *)
Definition callback_values (p : Proto) (vs : list CRaw) : option (list PyVal) :=
  ts ← p.(argtypes); getfuncs ts vs.

(** The eight values as the parameters of [callback] (line 39). *)
Definition cbargs_of (xs : list PyVal) : option CbArgs :=
  match xs with
  | [PyInt f; PyInt a; r; p; ft; PyInt fl; c; PyInt cl] => Some (mkCbArgs f a r p ft fl c cl)
  | _ => None
  end.

(** The values of a [CbArgs], in the same order. *)
Definition cbargs_values (a : CbArgs) : list PyVal :=
  [PyInt a.(flag); PyInt a.(arg); a.(recorder_name); a.(pos); a.(feature);
   PyInt a.(feature_len); a.(context); PyInt a.(context_len)].

(** ** Types of values *)

(** A C value the engine can pass for a declared type: a word in the
    type's range, or any pointer. *)
Definition raw_has_ctype (t : CType) (v : CRaw) : bool :=
  match t, v with
  | c_int, RWord z => bool_decide (- 2 ^ 31 <= z < 2 ^ 31)
  | c_uint, RWord z => bool_decide (0 <= z < 2 ^ 32)
  | c_size_t, RWord z => bool_decide (0 <= z < 2 ^ 64)
  | c_char_p, RPtr _ => true
  | _, _ => false
  end.

(** A Python object of a declared callback argument type: an int in the
    type's range, or [None] or [bytes] without NUL for [c_char_p]. *)
Definition has_ctype (t : CType) (v : PyVal) : bool :=
  match t, v with
  | c_int, PyInt z => bool_decide (- 2 ^ 31 <= z < 2 ^ 31)
  | c_uint, PyInt z => bool_decide (0 <= z < 2 ^ 32)
  | c_size_t, PyInt z => bool_decide (0 <= z < 2 ^ 64)
  | c_char_p, PyNone => true
  | c_char_p, PyBytes bs => bool_decide (Byte.x00 ∉ bs)
  | _, _ => false
  end.

(** ** Properties *)

(** The getter of a declared type keeps the type. *)
Lemma getfunc_typed t v x :
  raw_has_ctype t v = true -> getfunc t v = Some x -> has_ctype t x = true.
Proof.
  destruct t, v as [z|p]; simpl; try discriminate;
    try (intros Hz E; injection E as <-; exact Hz).
  intros _. destruct p as [|m]; simpl; [intros E; injection E as <-; reflexivity|].
  destruct (cstr_read m) as [bs|] eqn:Hm; simpl; [|discriminate].
  intros E; injection E as <-. apply bool_decide_eq_true_2, (cstr_read_no_nul m), Hm.
Qed.

Lemma getfuncs_typed ts vs xs :
  Forall2 (fun t v => raw_has_ctype t v = true) ts vs -> getfuncs ts vs = Some xs ->
  Forall2 (fun t x => has_ctype t x = true) ts xs.
Proof.
  intros Hvs. revert xs. induction Hvs as [|t v ts vs Hv _ IH]; intros xs; simpl.
  - intros E; injection E as <-. constructor.
  - destruct (getfunc t v) as [x|] eqn:Ex; simpl; [|discriminate].
    destruct (getfuncs ts vs) as [xs'|]; simpl; [|discriminate].
    intros E; injection E as <-. constructor; [exact (getfunc_typed _ _ _ Hv Ex)|].
    apply IH. reflexivity.
Qed.

(** [convert_args] is the generic conversion for the prototype of line 5. *)
Lemma convert_args_generic c :
  convert_args c = callback_values BeCallback (raw_values c) ≫= cbargs_of.
Proof.
  unfold convert_args, callback_values. simpl.
  destruct (z_get (c_recorder_name c)), (z_get (c_pos c)), (z_get (c_feature c)),
    (z_get (c_context c)); reflexivity.
Qed.

Lemma cbargs_of_values xs a : cbargs_of xs = Some a -> xs = cbargs_values a.
Proof.
  destruct xs as [|[| f |] [|[| x |] [|r [|p [|ft [|[| fl |] [|c [|[| cl |] []]]]]]]]];
    simpl; try discriminate.
  intros E; injection E as <-. reflexivity.
Qed.

(** C30 (type): whenever the engine passes C values of the types line 5
    declares, the eight objects [callback] receives have those types:
    [flag] a C [int], [arg] a C [unsigned int], the lengths [size_t]
    values, and the four [char *] slots [None] or [bytes] without a NUL
    byte. *)
Theorem convert_args_typed c a :
  Forall2 (fun t v => raw_has_ctype t v = true) BeCallback_argtypes (raw_values c) ->
  convert_args c = Some a ->
  Forall2 (fun t x => has_ctype t x = true) BeCallback_argtypes (cbargs_values a).
Proof.
  intros Hraw Ha. rewrite convert_args_generic in Ha.
  change (callback_values BeCallback (raw_values c))
    with (getfuncs BeCallback_argtypes (raw_values c)) in Ha.
  destruct (getfuncs BeCallback_argtypes (raw_values c)) as [xs|] eqn:E; cbn in Ha;
    [|discriminate Ha].
  rewrite <- (cbargs_of_values _ _ Ha). exact (getfuncs_typed _ _ _ Hraw E).
Qed.

(** ** Witnesses *)

(** A feature event with NUL-terminated strings and a NULL context. *)
Lemma convert_args_typed_witness :
  Forall2 (fun t v => raw_has_ctype t v = true) BeCallback_argtypes
    (raw_values (mkCRawArgs 1 7 ex_recorder ex_pos ex_ctx 1 CNull 0)) /\
  convert_args (mkCRawArgs 1 7 ex_recorder ex_pos ex_ctx 1 CNull 0) =
    Some (mkCbArgs 1 7 (PyBytes [Byte.x72]) (PyBytes [Byte.x30]) (PyBytes [Byte.x66]) 1 PyNone 0) /\
  Forall2 (fun t x => has_ctype t x = true) BeCallback_argtypes
    (cbargs_values (mkCbArgs 1 7 (PyBytes [Byte.x72]) (PyBytes [Byte.x30]) (PyBytes [Byte.x66]) 1 PyNone 0)).
Proof.
  assert (Forall2 (fun t v => raw_has_ctype t v = true) BeCallback_argtypes
    (raw_values (mkCRawArgs 1 7 ex_recorder ex_pos ex_ctx 1 CNull 0))) as Hraw
    by (repeat constructor).
  split; [exact Hraw|]. split; [reflexivity|].
  apply (convert_args_typed _ _ Hraw). reflexivity.
Defined.

End Loader.
