(* ===== verification/Utf8.v ===== *)
(** * UTF-8 encoding of a Python [str]: [bytearray(buf, 'utf-8')]

    Line 17 of [src/python/module/modbulk_extractor.py] encodes a [str]
    buffer with the strict [utf-8] codec before it crosses to C.  A Python
    [str] is a sequence of code points in [0, 0x10FFFF], lone surrogates
    included; the strict encoder (CPython's [stringlib] [utf8_encoder])
    writes one to four bytes per code point with the shifts and masks
    below and raises [UnicodeEncodeError] on a surrogate.

    [utf8_decode] is a strict decoder (Unicode's table 3-7: no overlong
    forms, no surrogates, nothing above [0x10FFFF]); it is not code of the
    program and serves to state that the encoding loses nothing. *)

From stdpp Require Import base list.
From Stdlib Require Import ZArith Lia Strings.Byte.
From S2P Require Import Prelude.

Open Scope Z_scope.

Module Utf8.

(** A Python [str], as its code points. *)
Abbreviation PyStr := (list Z).

(** Every code point of a Python [str] lies in [0, 0x10FFFF]. *)
Definition py_str_wf (s : PyStr) : bool :=
  forallb (fun c => (0 <=? c) && (c <=? 0x10FFFF)) s.

Definition is_surrogate (c : Z) : bool := (0xD800 <=? c) && (c <=? 0xDFFF).

(** The bytes of one code point, [None] for a surrogate. *)
Definition encode_cp (c : Z) : option (list byte) :=
  if c <? 0x80 then Some [byte_of_Z c]
  else if c <? 0x800 then
    Some [byte_of_Z (Z.lor 0xC0 (Z.shiftr c 6));
          byte_of_Z (Z.lor 0x80 (Z.land c 0x3F))]
  else if is_surrogate c then None
  else if c <? 0x10000 then
    Some [byte_of_Z (Z.lor 0xE0 (Z.shiftr c 12));
          byte_of_Z (Z.lor 0x80 (Z.land (Z.shiftr c 6) 0x3F));
          byte_of_Z (Z.lor 0x80 (Z.land c 0x3F))]
  else
    Some [byte_of_Z (Z.lor 0xF0 (Z.shiftr c 18));
          byte_of_Z (Z.lor 0x80 (Z.land (Z.shiftr c 12) 0x3F));
          byte_of_Z (Z.lor 0x80 (Z.land (Z.shiftr c 6) 0x3F));
          byte_of_Z (Z.lor 0x80 (Z.land c 0x3F))].

(** [str.encode('utf-8')] with the strict error handler. *)
Fixpoint utf8_encode (s : PyStr) : PyResult (list byte) :=
  match s with
  | [] => PyOk []
  | c :: s' =>
      match encode_cp c with
      | None => PyRaise UnicodeEncodeError
      | Some bs => rest ← utf8_encode s'; PyOk (bs ++ rest)
      end
  end.

(** A text buffer with code points of each encoded length. *)
Definition ex_text : PyStr := [0x41; 0xE9; 0x20AC; 0x1F600].

Definition ex_text_bytes : list byte :=
  [Byte.x41; Byte.xc3; Byte.xa9; Byte.xe2; Byte.x82; Byte.xac;
   Byte.xf0; Byte.x9f; Byte.x98; Byte.x80].

(** ** The strict decoder *)

Definition is_cont (b : byte) : bool :=
  (0x80 <=? Z_of_byte b) && (Z_of_byte b <? 0xC0).

Definition payload (b : byte) : Z := Z_of_byte b - 0x80.

Fixpoint utf8_decode (bs : list byte) : option PyStr :=
  match bs with
  | [] => Some []
  | b0 :: r0 =>
      let z0 := Z_of_byte b0 in
      if z0 <? 0x80 then cons z0 <$> utf8_decode r0
      else if z0 <? 0xC2 then None
      else if z0 <? 0xE0 then
        match r0 with
        | b1 :: r1 =>
            if is_cont b1 then cons ((z0 - 0xC0) * 64 + payload b1) <$> utf8_decode r1
            else None
        | [] => None
        end
      else if z0 <? 0xF0 then
        match r0 with
        | b1 :: b2 :: r2 =>
            let c := (z0 - 0xE0) * 4096 + payload b1 * 64 + payload b2 in
            if is_cont b1 && is_cont b2 && (0x800 <=? c) && negb (is_surrogate c)
            then cons c <$> utf8_decode r2 else None
        | _ => None
        end
      else if z0 <? 0xF5 then
        match r0 with
        | b1 :: b2 :: b3 :: r3 =>
            let c := (z0 - 0xF0) * 262144 + payload b1 * 4096 + payload b2 * 64
                     + payload b3 in
            if is_cont b1 && is_cont b2 && is_cont b3 && (0x10000 <=? c)
               && (c <=? 0x10FFFF)
            then cons c <$> utf8_decode r3 else None
        | _ => None
        end
      else None
  end.

(** ** Bit operations as arithmetic *)

Lemma land_high_low k n x :
  0 <= n -> 0 <= x < 2 ^ n -> Z.land (k * 2 ^ n) x = 0.
Proof.
  intros Hn Hx. apply Z.bits_inj'. intros i Hi.
  rewrite Z.land_spec, Z.bits_0.
  destruct (Z.lt_ge_cases i n).
  - rewrite Z.mul_pow2_bits_low by lia. reflexivity.
  - destruct (Z.eq_dec x 0) as [->|Hx0]; [rewrite Z.bits_0; apply andb_false_r|].
    rewrite (Z.bits_above_log2 x i); [apply andb_false_r|lia|].
    apply Z.log2_lt_pow2; [lia|].
    apply Z.lt_le_trans with (2 ^ n); [lia|apply Z.pow_le_mono_r; lia].
Qed.

(** [k * 2^n | x] is an addition when [x] fits in the low [n] bits. *)
Lemma lor_high_low k n x :
  0 <= n -> 0 <= x < 2 ^ n -> Z.lor (k * 2 ^ n) x = k * 2 ^ n + x.
Proof.
  intros Hn Hx. symmetry. rewrite <- Z.lxor_lor by (apply land_high_low; lia).
  apply Z.add_nocarry_lxor, land_high_low; lia.
Qed.

Lemma shiftr_div c n : 0 <= n -> Z.shiftr c n = c / 2 ^ n.
Proof. intros Hn. apply Z.shiftr_div_pow2. exact Hn. Qed.

Lemma land_3F x : Z.land x 0x3F = x mod 64.
Proof. change 0x3F with (Z.ones 6). rewrite Z.land_ones by lia. reflexivity. Qed.

(** A continuation byte [0x80 | (x & 0x3F)]. *)
Lemma cont_byte x : Z.lor 0x80 (Z.land x 0x3F) = 0x80 + x mod 64.
Proof.
  rewrite land_3F. change 0x80 with (2 * 2 ^ 6).
  apply lor_high_low; [lia|]. apply Z.mod_pos_bound. lia.
Qed.

(** Decide the comparisons of a goal by [lia]. *)
Ltac zcmp :=
  repeat match goal with
  | |- context [?a <? ?b] => destruct (Z.ltb_spec a b); try zlia; cbn iota
  | |- context [?a <=? ?b] => destruct (Z.leb_spec a b); try zlia; cbn iota
  end.

(** The bytes of each length class, as arithmetic. *)
Lemma encode_cp_1 c : 0 <= c < 0x80 -> encode_cp c = Some [byte_of_Z c].
Proof. intros H. unfold encode_cp. zcmp. reflexivity. Qed.

Lemma encode_cp_2 c :
  0x80 <= c < 0x800 ->
  encode_cp c = Some [byte_of_Z (0xC0 + c / 64); byte_of_Z (0x80 + c mod 64)].
Proof.
  intros H. unfold encode_cp, is_surrogate. zcmp. rewrite cont_byte, shiftr_div by lia.
  change 0xC0 with (6 * 2 ^ 5). rewrite lor_high_low; [reflexivity|lia|].
  split; [apply Z.div_pos|apply Z.div_lt_upper_bound]; lia.
Qed.

Lemma encode_cp_3 c :
  0x800 <= c < 0x10000 -> is_surrogate c = false ->
  encode_cp c = Some [byte_of_Z (0xE0 + c / 4096); byte_of_Z (0x80 + (c / 64) mod 64);
                      byte_of_Z (0x80 + c mod 64)].
Proof.
  intros H Hs. unfold encode_cp. rewrite Hs. zcmp.
  rewrite !cont_byte, !shiftr_div by lia.
  change 0xE0 with (14 * 2 ^ 4). rewrite lor_high_low; [reflexivity|lia|].
  split; [apply Z.div_pos|apply Z.div_lt_upper_bound]; lia.
Qed.

Lemma encode_cp_4 c :
  0x10000 <= c <= 0x10FFFF ->
  encode_cp c = Some [byte_of_Z (0xF0 + c / 262144); byte_of_Z (0x80 + (c / 4096) mod 64);
                      byte_of_Z (0x80 + (c / 64) mod 64); byte_of_Z (0x80 + c mod 64)].
Proof.
  intros H. unfold encode_cp, is_surrogate. zcmp.
  rewrite !cont_byte, !shiftr_div by lia.
  change 0xF0 with (30 * 2 ^ 3). rewrite lor_high_low; [reflexivity|lia|].
  split; [apply Z.div_pos|apply Z.div_lt_upper_bound]; lia.
Qed.

Lemma Z_of_byte_small z : 0 <= z < 256 -> Z_of_byte (byte_of_Z z) = z.
Proof. intros H. rewrite Z_of_byte_of_Z. apply Z.mod_small. exact H. Qed.

(** One decoding step over the bytes of a code point. *)
Ltac decode_step :=
  cbn [utf8_decode app]; unfold is_cont, payload, is_surrogate;
  rewrite ?Z_of_byte_small by zlia; zcmp; cbn [andb negb]; zcmp.

(** The decoded code point is the one encoded. *)
Ltac close_cp :=
  match goal with
  | |- cons ?x <$> _ = cons ?c <$> _ => replace x with c by zlia; reflexivity
  end.

(** Decoding the bytes of a code point, followed by anything, yields that
    code point first. *)
Lemma decode_encode_cp c bs r :
  0 <= c <= 0x10FFFF -> encode_cp c = Some bs ->
  utf8_decode (bs ++ r) = cons c <$> utf8_decode r.
Proof.
  intros Hc Henc.
  destruct (Z.lt_ge_cases c 0x80).
  { rewrite encode_cp_1 in Henc by lia. injection Henc as <-. decode_step. reflexivity. }
  destruct (Z.lt_ge_cases c 0x800).
  { rewrite encode_cp_2 in Henc by lia. injection Henc as <-. decode_step; close_cp. }
  destruct (is_surrogate c) eqn:Hs.
  { unfold encode_cp in Henc. rewrite Hs in Henc.
    destruct (Z.ltb_spec c 0x80); [lia|]. destruct (Z.ltb_spec c 0x800); [lia|].
    discriminate. }
  destruct (Z.lt_ge_cases c 0x10000).
  - rewrite encode_cp_3 in Henc by (lia || exact Hs). injection Henc as <-.
    unfold is_surrogate in Hs. decode_step; close_cp.
  - rewrite encode_cp_4 in Henc by lia. injection Henc as <-. decode_step; close_cp.
Qed.

Lemma is_surrogate_range c : is_surrogate c = true <-> 0xD800 <= c <= 0xDFFF.
Proof. unfold is_surrogate. rewrite andb_true_iff, !Z.leb_le. reflexivity. Qed.

Lemma encode_cp_None c : encode_cp c = None <-> 0x800 <= c /\ is_surrogate c = true.
Proof.
  unfold encode_cp.
  destruct (Z.ltb_spec c 0x80); [split; [discriminate|unfold is_surrogate; zcmp]|].
  destruct (Z.ltb_spec c 0x800); [split; [discriminate|unfold is_surrogate; zcmp]|].
  destruct (is_surrogate c); [tauto|].
  destruct (c <? 0x10000); split; (discriminate || intros [_ Hf]; discriminate).
Qed.

Lemma encode_cp_length c bs :
  encode_cp c = Some bs ->
  (1 <= length bs <= 4)%nat /\ (length bs = 1%nat <-> c < 0x80).
Proof.
  unfold encode_cp. intros Henc.
  destruct (Z.ltb_spec c 0x80); [injection Henc as <-; simpl; lia|].
  destruct (Z.ltb_spec c 0x800); [injection Henc as <-; simpl; lia|].
  destruct (is_surrogate c); [discriminate|].
  destruct (c <? 0x10000); injection Henc as <-; simpl; lia.
Qed.

Lemma utf8_encode_cons c s bs :
  utf8_encode (c :: s) = PyOk bs <->
  exists b1 b2, encode_cp c = Some b1 /\ utf8_encode s = PyOk b2 /\ bs = b1 ++ b2.
Proof.
  simpl. destruct (encode_cp c) as [b1|]; [|split; [discriminate|intros (? & ? & ? & _); discriminate]].
  destruct (utf8_encode s) as [b2|e]; simpl.
  - split; [intros H; injection H as <-; eauto|intros (? & ? & H1 & H2 & ->); congruence].
  - split; [discriminate|intros (? & ? & _ & H & _); discriminate].
Qed.

(** C37 (round trip): the bytes that the strict encoder produces for a
    Python [str] decode back to the same [str]; no information is lost when
    [analyze_buf] encodes a text buffer. *)
Theorem utf8_roundtrip s bs :
  py_str_wf s = true -> utf8_encode s = PyOk bs -> utf8_decode bs = Some s.
Proof.
  revert bs. induction s as [|c s IH]; intros bs Hwf Henc.
  - injection Henc as <-. reflexivity.
  - apply utf8_encode_cons in Henc as (b1 & b2 & H1 & H2 & ->).
    simpl in Hwf. apply andb_prop in Hwf as [Hc Hwf].
    rewrite andb_true_iff, Z.leb_le, Z.leb_le in Hc.
    rewrite (decode_encode_cp c b1 b2 Hc H1), (IH b2 Hwf H2). reflexivity.
Qed.

(** When the strict encoder raises. *)
Lemma utf8_encode_raise_iff s :
  py_str_wf s = true ->
  (utf8_encode s = PyRaise UnicodeEncodeError <-> existsb is_surrogate s = true) /\
  (forall e, utf8_encode s = PyRaise e -> e = UnicodeEncodeError).
Proof.
  induction s as [|c s IH]; intros Hwf; [split; [split; discriminate|discriminate]|].
  simpl in Hwf. apply andb_prop in Hwf as [Hc Hwf].
  rewrite andb_true_iff, Z.leb_le, Z.leb_le in Hc.
  destruct (IH Hwf) as [IHiff IHe]. simpl.
  destruct (encode_cp c) as [b1|] eqn:E.
  - assert (is_surrogate c = false) as Hs.
    { destruct (is_surrogate c) eqn:Hs; [|reflexivity].
      unfold encode_cp in E. rewrite Hs in E.
      apply is_surrogate_range in Hs.
      destruct (Z.ltb_spec c 0x80); [lia|].
      destruct (Z.ltb_spec c 0x800); [lia|discriminate]. }
    rewrite Hs. simpl. rewrite <- IHiff.
    destruct (utf8_encode s) as [b2|e2]; simpl; [split; [split; discriminate|discriminate]|].
    split; [reflexivity|]. intros e He. injection He as <-. apply IHe. reflexivity.
  - apply encode_cp_None in E as [_ ->]. simpl. split; [tauto|].
    intros e He. injection He as <-. reflexivity.
Qed.

(** C38 (error path): the strict encoder raises [UnicodeEncodeError] on a
    Python [str] exactly when it contains a lone surrogate; otherwise it
    returns bytes. *)
Theorem utf8_encode_error_iff s :
  py_str_wf s = true ->
  (utf8_encode s = PyRaise UnicodeEncodeError <-> existsb is_surrogate s = true) /\
  (forall e, utf8_encode s = PyRaise e -> e = UnicodeEncodeError).
Proof. apply utf8_encode_raise_iff. Qed.

(** C28 (bounds): the encoding of a [str] has at least one and at most four
    bytes per code point, and exactly one per code point iff the text is
    ASCII: [len(buf)] after encoding is the byte count, not the character
    count. *)
Theorem utf8_length_bounds s bs :
  utf8_encode s = PyOk bs ->
  (length s <= length bs <= 4 * length s)%nat /\
  (length bs = length s <-> Forall (fun c => c < 0x80) s).
Proof.
  revert bs. induction s as [|c s IH]; intros bs Henc.
  - injection Henc as <-. simpl. split; [lia|split; auto].
  - apply utf8_encode_cons in Henc as (b1 & b2 & H1 & H2 & ->).
    destruct (encode_cp_length c b1 H1) as [Hl Hasc].
    destruct (IH b2 H2) as [Hb Hiff].
    rewrite length_app, Forall_cons. simpl. split; [lia|].
    split.
    + intros Heq. assert (length b1 = 1%nat) by lia. split; [tauto|].
      apply Hiff. lia.
    + intros [Hc Hs]. apply Hasc in Hc. apply Hiff in Hs. lia.
Qed.

(** ** Witnesses *)

Lemma utf8_roundtrip_witness :
  py_str_wf ex_text = true /\ utf8_encode ex_text = PyOk ex_text_bytes /\
  utf8_decode ex_text_bytes = Some ex_text.
Proof.
  split; [reflexivity|]. split; [reflexivity|].
  apply utf8_roundtrip; reflexivity.
Defined.

Lemma utf8_encode_error_iff_witness :
  py_str_wf [0x61; 0xD800] = true /\
  utf8_encode [0x61; 0xD800] = PyRaise UnicodeEncodeError.
Proof.
  split; [reflexivity|]. apply utf8_encode_error_iff; reflexivity.
Defined.

Lemma utf8_length_bounds_witness :
  utf8_encode ex_text = PyOk ex_text_bytes /\
  (length ex_text <= length ex_text_bytes <= 4 * length ex_text)%nat.
Proof.
  split; [reflexivity|]. apply (utf8_length_bounds ex_text ex_text_bytes). reflexivity.
Defined.

End Utf8.
