(* ===== verification/Marshal.v ===== *)
(** * Buffer marshaling: [bulk_extractor_analyze_buf]

    Models lines 15-19 of [src/python/module/modbulk_extractor.py]:
<<
    def bulk_extractor_analyze_buf(handle, buf):
        if type(buf) == str:
            buf = bytearray(buf, 'utf-8')
        buf = (c_ubyte * len(buf)).from_buffer(buf)
        return lib_be.bulk_extractor_analyze_buf(handle, buf, len(buf))
>>
    The Python side either raises or produces the arguments of one native
    call: the handle as a [c_void_p], the bytes the [c_ubyte] array views,
    and its length as a [c_size_t].  What the native call does with them is
    the subject of [Native]; this file stops at the boundary. *)

From stdpp Require Import base list.
From Stdlib Require Import ZArith Lia Strings.Byte.
From S2P Require Import Prelude CTypes Utf8.

Open Scope Z_scope.

Module Marshal.

Import CTypes Utf8.

(** The buffer objects a caller can pass: a [str] (its exact type or a
    subclass, which the test [type(buf) == str] tells apart), [bytes]
    (immutable), [bytearray], and an [array.array] of items of
    [itemsize] bytes (a writable buffer whose [len] counts items). *)
Inductive PyBuf :=
| PStr (s : PyStr)
| PStrSubclass (s : PyStr)
| PBytes (bs : list byte)
| PBytearray (bs : list byte)
| PArray (itemsize : Z) (bs : list byte).

(** [len(buf)]. *)
Definition py_len (b : PyBuf) : Z :=
  match b with
  | PStr s | PStrSubclass s => Z.of_nat (length s)
  | PBytes bs | PBytearray bs => Z.of_nat (length bs)
  | PArray k bs => Z.of_nat (length bs) / k
  end.

(** [(c_ubyte * n).from_buffer(buf)]: needs a writable buffer of at least
    [n] bytes and views its first [n] bytes; [str] and [bytes] raise
    [TypeError], a buffer that is too small [ValueError]. *)
Definition from_buffer (n : Z) (b : PyBuf) : PyResult (list byte) :=
  match b with
  | PBytearray bs | PArray _ bs =>
      if decide (0 <= n <= Z.of_nat (length bs)) then PyOk (take (Z.to_nat n) bs)
      else PyRaise ValueError
  | _ => PyRaise TypeError
  end.

(** The arguments of [lib_be.bulk_extractor_analyze_buf] after the
    [argtypes] conversions: handle, the viewed bytes, their count. *)
Record AnalyzeCall := mkAnalyzeCall {
  ac_handle : Z;
  ac_buf : list byte;
  ac_len : Z
}.

(** Lines 16-17. *)
Definition encode_text (b : PyBuf) : PyResult PyBuf :=
  match b with
  | PStr s => PBytearray <$> utf8_encode s
  | _ => PyOk b
  end.

(** Lines 15-19 up to the native call: the arguments
    [bulk_extractor_analyze_buf] passes to the library. *)
Definition analyze_buf_args (handle : PyHandle) (buf : PyBuf)
    : PyResult AnalyzeCall :=
  buf ← encode_text buf;
  arr ← from_buffer (py_len buf) buf;
  h ← c_void_p_arg handle;
  PyOk (mkAnalyzeCall h arr (Z.of_nat (length arr))).

(** ** Properties *)

Lemma from_buffer_bytearray bs :
  from_buffer (py_len (PBytearray bs)) (PBytearray bs) = PyOk bs.
Proof.
  simpl. rewrite decide_True by lia. rewrite Nat2Z.id, take_ge by lia. reflexivity.
Qed.

(** A [bytearray] crosses the boundary as exactly its
    bytes, with their count as the length, and the handle as [c_void_p]
    converts it. *)
Theorem analyze_buf_bytearray handle bs h :
  c_void_p_arg handle = PyOk h ->
  analyze_buf_args handle (PBytearray bs) =
  PyOk (mkAnalyzeCall h bs (Z.of_nat (length bs))).
Proof.
  intros Hh. unfold analyze_buf_args. simpl encode_text.
  rewrite py_bind_ok, from_buffer_bytearray, py_bind_ok, Hh. reflexivity.
Qed.

(** C25 (equivalence, spec section 8): a text buffer and the [bytearray]
    of its UTF-8 encoding produce the same native call, so the engine
    sees the same bytes and reports the same events. *)
Theorem analyze_buf_text_equiv handle s bs :
  utf8_encode s = PyOk bs ->
  analyze_buf_args handle (PStr s) =
  analyze_buf_args handle (PBytearray bs).
Proof.
  intros He. unfold analyze_buf_args. simpl encode_text.
  rewrite He. reflexivity.
Qed.

(** C36 (error path): a text buffer with a lone surrogate raises
    [UnicodeEncodeError] before any native call. *)
Theorem analyze_buf_text_error handle s :
  py_str_wf s = true -> existsb is_surrogate s = true ->
  analyze_buf_args handle (PStr s) = PyRaise UnicodeEncodeError.
Proof.
  intros Hwf Hs. unfold analyze_buf_args. simpl encode_text.
  apply (utf8_encode_raise_iff s Hwf) in Hs. rewrite Hs. reflexivity.
Qed.

(** C35 (divergence): a [bytes] buffer, and a [str] subclass (which the
    exact type test does not encode), raise [TypeError] in [from_buffer]:
    the spec says a byte sequence or text is accepted. *)
Theorem analyze_buf_rejects_bytes handle bs s :
  analyze_buf_args handle (PBytes bs) = PyRaise TypeError /\
  analyze_buf_args handle (PStrSubclass s) = PyRaise TypeError.
Proof. split; reflexivity. Qed.

(** C40 (bounds): for a typed array, [len] counts items, so only the first
    [len(buf)] bytes of its memory are passed: a fraction [1/itemsize] of
    the data. *)
Theorem analyze_buf_array_prefix handle k bs h :
  1 <= k -> c_void_p_arg handle = PyOk h ->
  analyze_buf_args handle (PArray k bs) =
  PyOk (mkAnalyzeCall h (take (Z.to_nat (Z.of_nat (length bs) / k)) bs)
          (Z.of_nat (length bs) / k)).
Proof.
  intros Hk Hh. unfold analyze_buf_args. simpl.
  assert (0 <= Z.of_nat (length bs) / k <= Z.of_nat (length bs)).
  { split; [apply Z.div_pos; lia|apply Z.div_le_upper_bound; nia]. }
  rewrite decide_True by lia. simpl. rewrite Hh. simpl.
  rewrite length_take, Nat.min_l by lia. rewrite Z2Nat.id by lia. reflexivity.
Qed.

(** Whenever marshaling succeeds, the length passed is the
    exact number of bytes the pointer covers. *)
Theorem analyze_buf_length handle b c :
  analyze_buf_args handle b = PyOk c ->
  ac_len c = Z.of_nat (length (ac_buf c)).
Proof.
  unfold analyze_buf_args.
  destruct (encode_text b) as [b'|]; [simpl|discriminate].
  destruct (from_buffer (py_len b') b') as [arr|]; [simpl|discriminate].
  destruct (c_void_p_arg handle); [simpl|discriminate].
  intros H. injection H as <-. reflexivity.
Qed.

(** The handle passed is the object's handle when it is a 64-bit address. *)
Lemma analyze_buf_args_handle handle buf c :
  analyze_buf_args handle buf = PyOk c ->
  ac_handle c = match handle with None => 0 | Some h => h end \/
  (exists h, handle = Some h /\ ~ (0 <= h < 2 ^ 64)).
Proof.
  unfold analyze_buf_args.
  destruct (encode_text buf) as [b'|]; [simpl|discriminate].
  destruct (from_buffer (py_len b') b') as [arr|]; [simpl|discriminate].
  destruct handle as [h|]; simpl.
  - case_decide.
    + intros E. injection E as <-. left. reflexivity.
    + intros _. right. eauto.
  - intros E. injection E as <-. left. reflexivity.
Qed.

(** ** Witnesses *)

Lemma analyze_buf_bytearray_witness :
  c_void_p_arg (Some 139637976727552) = PyOk 139637976727552 /\
  analyze_buf_args (Some 139637976727552) (PBytearray ex_text_bytes) =
  PyOk (mkAnalyzeCall 139637976727552 ex_text_bytes 10).
Proof.
  split; [reflexivity|]. apply analyze_buf_bytearray. reflexivity.
Defined.

Lemma analyze_buf_text_equiv_witness :
  utf8_encode ex_text = PyOk ex_text_bytes /\
  analyze_buf_args (Some 4096) (PStr ex_text) =
  analyze_buf_args (Some 4096) (PBytearray ex_text_bytes).
Proof. split; [reflexivity|]. apply analyze_buf_text_equiv. reflexivity. Defined.

Lemma analyze_buf_text_error_witness :
  py_str_wf [0xDC00] = true /\ existsb is_surrogate [0xDC00] = true /\
  analyze_buf_args (Some 4096) (PStr [0xDC00]) = PyRaise UnicodeEncodeError.
Proof.
  split; [reflexivity|]. split; [reflexivity|].
  apply analyze_buf_text_error; reflexivity.
Defined.

Lemma analyze_buf_array_prefix_witness :
  1 <= 4 /\ c_void_p_arg (Some 4096) = PyOk 4096 /\
  analyze_buf_args (Some 4096) (PArray 4 ex_text_bytes) =
  PyOk (mkAnalyzeCall 4096 [Byte.x41; Byte.xc3] 2).
Proof.
  split; [lia|]. split; [reflexivity|].
  apply (analyze_buf_array_prefix (Some 4096) 4 ex_text_bytes 4096); [lia|reflexivity].
Defined.

Lemma analyze_buf_length_witness :
  analyze_buf_args None (PStr ex_text) = PyOk (mkAnalyzeCall 0 ex_text_bytes 10) /\
  ac_len (mkAnalyzeCall 0 ex_text_bytes 10) =
    Z.of_nat (length (ac_buf (mkAnalyzeCall 0 ex_text_bytes 10))).
Proof.
  split; [reflexivity|]. apply (analyze_buf_length None (PStr ex_text)). reflexivity.
Defined.

End Marshal.
