(* ===== verification/Native.v ===== *)
(** * The native library and the ctypes objects around it

    [libbulk_extractor.so] is not part of the repository: its contract is
    modelled from the spec (sections 4.4, 5 and 6) as the type class
    [NativeLib]: [open] registers a callback address and returns a fresh
    handle or NULL, [close] ends a live session and is undefined on
    anything else, [scan] lists the callback invocations the engine makes
    for a buffer.  [engine_dispatch] is how the engine drives the callback
    during one analyze call (spec section 5: synchronously, in order; a
    non-zero status requests an early end, which this model honours at
    once, one of the behaviours the spec allows).

    The Python side of the boundary is modelled from the source: a world
    with the Python state the handlers change, the native state, the store
    of ctypes [CFUNCTYPE] objects by code address with their reference
    counts (CPython frees an object when its count drops to 0), and the
    trace of calls into the library.  [native_open], [native_analyze] and
    [native_close] are the three [lib_be] calls of lines 14, 19 and 21 with
    their [argtypes]/[restype] conversions.  A computation on the world ends
    normally, raises a Python exception, or reaches undefined behaviour. *)

From stdpp Require Import base list gmap.
From Stdlib Require Import ZArith Lia Strings.Byte.
From S2P Require Import Prelude Demux CTypes Marshal.

Open Scope Z_scope.

Module Native.

Import Demux CTypes Marshal.

(** The contract of [libbulk_extractor.so] over its state [N]. *)
Class NativeLib (N : Type) := {
  nl_open : N -> Z -> N * Z;
  nl_close : N -> Z -> option (N * Z);
  nl_session : N -> Z -> option Z;
  nl_scan : N -> Z -> list byte -> list CRawArgs;
  nl_null_invalid n : nl_session n 0 = None;
  nl_open_range n a n' h : nl_open n a = (n', h) -> 0 <= h < 2 ^ 64;
  nl_open_fresh n a n' h :
    nl_open n a = (n', h) -> h <> 0 -> nl_session n h = None /\ nl_session n' h = Some a;
  nl_open_other n a n' h h' :
    nl_open n a = (n', h) -> h' <> h -> nl_session n' h' = nl_session n h';
  nl_close_live n h a :
    nl_session n h = Some a -> exists n' r, nl_close n h = Some (n', r) /\ nl_session n' h = None;
  nl_close_other n h n' r h' :
    nl_close n h = Some (n', r) -> h' <> h -> nl_session n' h' = nl_session n h';
  nl_close_invalid n h : nl_session n h = None -> nl_close n h = None
}.

(** Calls into the library, in the order they are made. *)
Inductive NativeCall :=
| NOpen (cb_addr : Z)
| NAnalyze (handle : Z) (buf : list byte) (len : Z)
| NClose (handle : Z).

(** Undefined behaviour the model detects. *)
Inductive UBKind :=
| UseAfterFree     (* the engine calls a freed CFUNCTYPE object *)
| InvalidHandle    (* a library call on a pointer that is no live session *)
| CallbackFault.   (* a [char *] read past its allocation, or a non-int result *)

Section World.
Context {St N : Type} `{NativeLib N}.

(** A [CFUNCTYPE] object: the Python callable and its reference count. *)
Record Thunk := mkThunk { th_cb : @Callback St; th_refs : nat }.

(** The world: the Python state the handlers change, the native state,
    the [CFUNCTYPE] objects and the [BulkExtractor] objects (their one
    attribute [handle]; an absent entry is an object whose attribute was
    never set) by address, the next free address, the trace of calls. *)
Record World := mkWorld {
  w_py : St;
  w_native : N;
  w_thunks : gmap Z Thunk;
  w_objs : gmap Z PyHandle;
  w_next : Z;
  w_calls : list NativeCall
}.

Inductive Outcome (A : Type) :=
| Ret (w : World) (a : A)
| Exc (w : World) (e : PyExc)
| UB (k : UBKind).
Arguments Ret {A} w a.
Arguments Exc {A} w e.
Arguments UB {A} k.

(** Computations on the world. *)
Definition M (A : Type) := World -> Outcome A.

Definition mret {A} (a : A) : M A := fun w => Ret w a.
Definition mbind {A B} (m : M A) (f : A -> M B) : M B :=
  fun w => match m w with
           | Ret w' a => f a w'
           | Exc w' e => Exc w' e
           | UB k => UB k
           end.
Definition mraise {A} (e : PyExc) : M A := fun w => Exc w e.
Definition mub {A} (k : UBKind) : M A := fun _ => UB k.
Definition lift {A} (r : PyResult A) : M A :=
  match r with PyOk a => mret a | PyRaise e => mraise e end.
Definition modify (f : World -> World) : M unit := fun w => Ret (f w) tt.
(** The outcome of a computation that returns or raises in world [w]. *)
Definition py_outcome {A} (w : World) (r : PyResult A) : Outcome A :=
  match r with PyOk a => Ret w a | PyRaise e => Exc w e end.
Definition gets {A} (f : World -> A) : M A := fun w => Ret w (f w).

Definition set_py (st : St) (w : World) : World :=
  mkWorld st w.(w_native) w.(w_thunks) w.(w_objs) w.(w_next) w.(w_calls).
Definition set_native (n : N) (w : World) : World :=
  mkWorld w.(w_py) n w.(w_thunks) w.(w_objs) w.(w_next) w.(w_calls).
Definition set_thunks (t : gmap Z Thunk) (w : World) : World :=
  mkWorld w.(w_py) w.(w_native) t w.(w_objs) w.(w_next) w.(w_calls).
Definition set_objs (o : gmap Z PyHandle) (w : World) : World :=
  mkWorld w.(w_py) w.(w_native) w.(w_thunks) o w.(w_next) w.(w_calls).
Definition bump_next (w : World) : World :=
  mkWorld w.(w_py) w.(w_native) w.(w_thunks) w.(w_objs) (w.(w_next) + 1) w.(w_calls).
Definition log_call (c : NativeCall) (w : World) : World :=
  mkWorld w.(w_py) w.(w_native) w.(w_thunks) w.(w_objs) w.(w_next) (w.(w_calls) ++ [c]).

End World.

Arguments Ret {St N A} w a.
Arguments Exc {St N A} w e.
Arguments UB {St N A} k.

Declare Scope native_scope.
Delimit Scope native_scope with native.
Notation "x <- m ;; k" := (mbind m (fun x => k))
  (at level 100, m at next level, right associativity) : native_scope.
Notation "m ;; k" := (mbind m (fun _ => k))
  (at level 100, right associativity) : native_scope.
Open Scope native_scope.

Section Boundary.
Context {St N : Type} `{NativeLib N}.

(** [BeCallback(cb)]: a new [CFUNCTYPE] object at a fresh code address,
    referenced once (by the local variable that holds it). *)
Definition alloc_thunk (cb : @Callback St) : @M St N Z :=
  fun w => Ret (bump_next (set_thunks (<[w.(w_next) := mkThunk cb 1]> w.(w_thunks)) w))
               w.(w_next).

(** Dropping a reference; at 0 CPython frees the object (and libffi its
    closure). *)
Definition decref (a : Z) : @M St N unit :=
  modify (fun w =>
    match w.(w_thunks) !! a with
    | Some (mkThunk cb (S (S k))) => set_thunks (<[a := mkThunk cb (S k)]> w.(w_thunks)) w
    | Some _ => set_thunks (delete a w.(w_thunks)) w
    | None => w
    end).

(** The engine invoking the callback at address [a] for each event, in
    order (spec sections 4.1 and 5).  A non-zero status only requests an
    early end in the spec; the model takes an engine that honours it at
    once and returns that status, and 0 when all events were delivered.
    No theorem of the development depends on this choice: those about a
    scan either see only zero statuses or end at its first event. *)
Fixpoint engine_dispatch (a : Z) (evs : list CRawArgs) : @M St N Z :=
  match evs with
  | [] => mret 0
  | e :: evs' => fun w =>
      match w.(w_thunks) !! a with
      | None => UB UseAfterFree
      | Some t =>
          let '(st', r) := trampoline t.(th_cb) w.(w_py) e in
          match r with
          | CUndef => UB CallbackFault
          | CRet s =>
              if decide (s = 0) then engine_dispatch a evs' (set_py st' w)
              else Ret (set_py st' w) s
          end
      end
  end.

(** [lib_be.bulk_extractor_open(cb)]: the [BeCallback] argument passes the
    object's code address; [restype = c_void_p] maps NULL to [None]. *)
Definition native_open (a : Z) : @M St N PyHandle :=
  fun w => let '(n', h) := nl_open w.(w_native) a in
           Ret (log_call (NOpen a) (set_native n' w)) (c_void_p_ret h).

(** [lib_be.bulk_extractor_analyze_buf(handle, buf, len)] on converted
    arguments: the engine scans the buffer of the session the pointer
    names, calling back through the address registered at open; the
    default [restype] [c_int] returns its status. *)
Definition native_analyze (c : AnalyzeCall) : @M St N Z :=
  fun w =>
    let w1 := log_call (NAnalyze c.(ac_handle) c.(ac_buf) c.(ac_len)) w in
    match nl_session w.(w_native) c.(ac_handle) with
    | None => UB InvalidHandle
    | Some a => engine_dispatch a (nl_scan w.(w_native) c.(ac_handle) c.(ac_buf)) w1
    end.

(** [lib_be.bulk_extractor_close(handle)]: no [argtypes], so the handle
    goes through the default conversion to a C [int] first. *)
Definition native_close (handle : PyHandle) : @M St N Z :=
  p <- lift (default_arg handle) ;;
  (fun w =>
     match nl_close w.(w_native) p with
     | None => UB InvalidHandle
     | Some (n', r) => Ret (log_call (NClose p) (set_native n' w)) r
     end).

End Boundary.

Section Frame.
Context {St N : Type} `{NativeLib N}.

(** The parts of the world an analyze call leaves alone. *)
Definition same_frame (w w' : @World St N) : Prop :=
  w'.(w_objs) = w.(w_objs) /\ w'.(w_native) = w.(w_native) /\ w'.(w_thunks) = w.(w_thunks).

Lemma same_frame_refl w : same_frame w w.
Proof. repeat split. Qed.

Lemma same_frame_trans w1 w2 w3 : same_frame w1 w2 -> same_frame w2 w3 -> same_frame w1 w3.
Proof. intros (? & ? & ?) (? & ? & ?). repeat split; congruence. Qed.

Lemma same_frame_set_py w st : same_frame w (set_py st w).
Proof. repeat split. Qed.

Lemma same_frame_log_call w c : same_frame w (log_call c w).
Proof. repeat split. Qed.

(** The engine's callbacks change only the Python state. *)
Lemma engine_dispatch_frame a evs w w' s :
  engine_dispatch a evs w = Ret w' s -> same_frame w w'.
Proof.
  revert w. induction evs as [|e evs IH]; intros w; simpl.
  - intros E. injection E as <- _. apply same_frame_refl.
  - destruct (w_thunks w !! a) as [t|]; [|discriminate].
    destruct (trampoline (th_cb t) (w_py w) e) as [st' [r|]]; [|discriminate].
    case_decide.
    + intros E. apply IH in E. exact (same_frame_trans _ _ _ (same_frame_set_py w st') E).
    + intros E. injection E as <- _. apply same_frame_set_py.
Qed.

Lemma native_analyze_frame c w w' s :
  native_analyze c w = Ret w' s -> same_frame w w'.
Proof.
  unfold native_analyze. destruct (nl_session (w_native w) (ac_handle c)); [|discriminate].
  intros E. apply engine_dispatch_frame in E.
  exact (same_frame_trans _ _ _ (same_frame_log_call w _) E).
Qed.

(** The engine never raises a Python exception: it returns or crashes. *)
Lemma engine_dispatch_not_exc a evs (w w' : @World St N) e :
  engine_dispatch a evs w <> Exc w' e.
Proof.
  revert w. induction evs as [|ev evs IH]; intros w; simpl; [discriminate|].
  destruct (w_thunks w !! a) as [t|]; [|discriminate].
  destruct (trampoline (th_cb t) (w_py w) ev) as [st' [r|]]; [|discriminate].
  case_decide; [apply IH|discriminate].
Qed.

Lemma native_analyze_not_exc c (w w' : @World St N) e : native_analyze c w <> Exc w' e.
Proof.
  unfold native_analyze. destruct (nl_session (w_native w) (ac_handle c)); [|discriminate].
  apply engine_dispatch_not_exc.
Qed.

End Frame.

#[export] Hint Resolve same_frame_refl : bex.

End Native.
