(* ===== verification/Engine.v ===== *)
(** * A concrete engine satisfying the library's contract

    [NativeLib] states what the repository's code relies on from
    [libbulk_extractor.so].  [ToyState] is a small engine that satisfies it:
    sessions in a map from handle to callback address, handles handed out
    from a counter (as a heap allocator would, 4096 bytes apart), and a
    scanner that reports the whole buffer as one feature when it contains
    an [@] ([toy_native]), or never ([quiet_native]).  It is not a model
    of the real extraction algorithms (out of the spec's scope); it shows
    the contract is satisfiable and gives the theorems of [Handle],
    [Lifecycle] and [Main] concrete worlds to run on. *)

From stdpp Require Import base list gmap.
From Stdlib Require Import ZArith Lia Strings.Byte.
From S2P Require Import Prelude Demux CTypes Marshal Native.

Open Scope Z_scope.

Module Engine.

Import Demux CTypes Native.

Record ToyState := mkToy { toy_sessions : gmap Z Z; toy_next : Z }.

Definition toy_session (n : ToyState) (h : Z) : option Z :=
  if decide (h = 0) then None else toy_sessions n !! h.

Definition toy_open (n : ToyState) (a : Z) : ToyState * Z :=
  let h := toy_next n in
  if decide (0 < h < 2 ^ 64) then
    match toy_sessions n !! h with
    | None => (mkToy (<[h := a]> (toy_sessions n)) (h + 4096), h)
    | Some _ => (n, 0)
    end
  else (n, 0).

Definition toy_close (n : ToyState) (h : Z) : option (ToyState * Z) :=
  match toy_session n h with
  | None => None
  | Some _ => Some (mkToy (delete h (toy_sessions n)) (toy_next n), 0)
  end.

(** Recorder ["email"], position ["0"], the buffer as feature. *)
Definition toy_scan (n : ToyState) (h : Z) (buf : list byte) : list CRawArgs :=
  if bool_decide (Byte.x40 ∈ buf) then
    [mkCRawArgs 1 0 (CMem [Byte.x65; Byte.x6d; Byte.x61; Byte.x69; Byte.x6c; Byte.x00])
       (CMem [Byte.x30; Byte.x00]) (CMem (buf ++ [Byte.x00])) (Z.of_nat (length buf))
       (CMem [Byte.x00]) 0]
  else [].

(** The engine with a given scanner: the contract's laws do not depend
    on what the scanner reports. *)
Definition toy_lib (scan : ToyState -> Z -> list byte -> list CRawArgs) : NativeLib ToyState.
Proof.
  refine (Build_NativeLib ToyState toy_open toy_close toy_session scan _ _ _ _ _ _ _).
  - intros n. unfold toy_session. rewrite decide_True by reflexivity. reflexivity.
  - intros n a n' h. unfold toy_open.
    case_decide; [destruct (toy_sessions n !! toy_next n)|];
      intros E; injection E as <- <-; lia.
  - intros n a n' h. unfold toy_open, toy_session.
    case_decide; [destruct (toy_sessions n !! toy_next n) eqn:Hs|];
      intros E; injection E as <- <-; intros Hh; try lia.
    rewrite !decide_False by lia. simpl. rewrite lookup_insert_eq. auto.
  - intros n a n' h h'. unfold toy_open, toy_session.
    case_decide; [destruct (toy_sessions n !! toy_next n)|];
      intros E; injection E as <- <-; intros Hne; try reflexivity.
    simpl. case_decide; [reflexivity|]. apply lookup_insert_ne. congruence.
  - intros n h a Hs. unfold toy_close. rewrite Hs. do 2 eexists. split; [reflexivity|].
    unfold toy_session in *. case_decide; [reflexivity|]. apply lookup_delete_eq.
  - intros n h n' r h'. unfold toy_close.
    destruct (toy_session n h); [|discriminate]. intros E; injection E as <- <-.
    intros Hne. unfold toy_session. simpl. case_decide; [reflexivity|].
    apply lookup_delete_ne. congruence.
  - intros n h Hs. unfold toy_close. rewrite Hs. reflexivity.
Defined.

#[export] Instance toy_native : NativeLib ToyState := toy_lib toy_scan.

(** The same engine with a scanner that never reports an event. *)
Definition quiet_native : NativeLib ToyState := toy_lib (fun _ _ _ => []).


(** A world with no objects yet, whose engine hands out [first_handle]
    first, and whose handlers log the events they receive. *)
Definition toy_world (first_handle : Z) : @World (list Event) ToyState :=
  mkWorld [] (mkToy ∅ first_handle) ∅ ∅ 4096 [].

Definition log_cb : @Callback (list Event) :=
  wrap_callback log_feature log_histogram log_carve.

(** A heap-like address above 4 GiB, and one below 2 GiB. *)
Definition high_handle : Z := 93824992235520.
Definition low_handle : Z := 65536.

(** A buffer with an [@] in it. *)
Definition ex_at : list byte := [Byte.x61; Byte.x40; Byte.x62].

End Engine.
