(* ===== verification/Handle.v ===== *)
(** * The engine handle: [bulk_extractor_open]/[_close] and [BulkExtractor]

    Models lines 12-21 and 28-56 of [src/python/module/modbulk_extractor.py]
    as computations on the world of [Native]:
    - [bulk_extractor_open] wraps the callable in a [BeCallback] object held
      only by its local variable [cb], passes it to the library, and drops
      it on return, so CPython frees it while the library keeps its
      address;
    - [bulk_extractor_analyze_buf] marshals ([Marshal]) and calls the
      library, which calls back through the registered address;
    - [bulk_extractor_close] passes the handle through ctypes' default int
      conversion ([CTypes.default_arg]);
    - [BulkExtractor] objects live in the world's object store, so the
      object [__enter__] returns and the one [__exit__] closes are the same
      object, as in Python;
    - [with_bulk_extractor] is Python's [with BulkExtractor(cb) as b_e:]
      statement: [__exit__] runs after the body whether it returns or
      raises, and, returning [False], lets the exception through.

    The theorems show the callback freed as soon as the session opens and
    what each method does on every branch; [Lifecycle] relates the methods
    to the spec's lifecycle (section 4.4). *)

From stdpp Require Import base list gmap.
From Stdlib Require Import ZArith Lia Strings.Byte.
From S2P Require Import Prelude Demux CTypes Marshal Native Engine.

Open Scope Z_scope.

Module Handle.

Import Demux CTypes Marshal Native Engine.

Section Handle.
Context {St N : Type} `{NativeLib N}.

Local Abbreviation M := (@M St N).

(** Lines 12-14:
<<
    def bulk_extractor_open(cb):
        cb = BeCallback(cb)
        return lib_be.bulk_extractor_open(cb);
>> *)
Definition bulk_extractor_open (cb : @Callback St) : M PyHandle :=
  a <- alloc_thunk cb ;;
  h <- native_open a ;;
  decref a ;;
  mret h.

(** Lines 15-19. *)
Definition bulk_extractor_analyze_buf (handle : PyHandle) (buf : PyBuf) : M Z :=
  c <- lift (analyze_buf_args handle buf) ;;
  native_analyze c.

(** Lines 20-21. *)
Definition bulk_extractor_close (handle : PyHandle) : M Z :=
  native_close handle.

(** [self.handle]: reading an attribute that was never set raises. *)
Definition get_handle (self : Z) : M PyHandle :=
  fun w => match w.(w_objs) !! self with
           | Some h => Ret w h
           | None => Exc w AttributeError
           end.

(** [self.handle = h]. *)
Definition set_handle (self : Z) (h : PyHandle) : M unit :=
  modify (fun w => set_objs (<[self := h]> w.(w_objs)) w).

(** [BulkExtractor(cb)]: a new object at a fresh address, then [__init__]
    (lines 29-30): [self.handle = bulk_extractor_open(cb)]. *)
Definition BulkExtractor_new (cb : @Callback St) : M Z :=
  self <- gets w_next ;;
  modify bump_next ;;
  h <- bulk_extractor_open cb ;;
  set_handle self h ;;
  mret self.

(** Lines 32-33: [__enter__] returns [self]. *)
Definition BulkExtractor_enter (self : Z) : M Z := mret self.

(** Lines 48-51: [close]. *)
Definition BulkExtractor_close (self : Z) : M unit :=
  h <- get_handle self ;;
  match h with
  | Some _ => bulk_extractor_close h ;; set_handle self None
  | None => mret tt
  end.

(** Lines 34-36: [__exit__] closes and returns [False]. *)
Definition BulkExtractor_exit (self : Z) : M bool :=
  BulkExtractor_close self ;; mret false.

(** Lines 55-56: [analyze_buf]. *)
Definition BulkExtractor_analyze_buf (self : Z) (buf : PyBuf) : M Z :=
  h <- get_handle self ;;
  bulk_extractor_analyze_buf h buf.

(** [with BulkExtractor(cb) as b_e: body]: [__exit__] runs on both the
    normal and the exceptional exit of the body; an exception is re-raised
    unless [__exit__] returns a true value. *)
Definition with_bulk_extractor (cb : @Callback St) (body : Z -> M unit) : M unit :=
  mgr <- BulkExtractor_new cb ;;
  b_e <- BulkExtractor_enter mgr ;;
  (fun w =>
     match body b_e w with
     | Ret w1 _ => (BulkExtractor_exit mgr ;; mret tt) w1
     | Exc w1 e =>
         match BulkExtractor_exit mgr w1 with
         | Ret w2 suppress => if suppress then Ret w2 tt else Exc w2 e
         | Exc w2 e2 => Exc w2 e2
         | UB k => UB k
         end
     | UB k => UB k
     end).

End Handle.

(** ** Concrete runs on the engine of [Engine], for the witnesses *)

(** The world a run ends in, when it returns. *)
Definition world_of {St N A} (o : @Outcome St N A) (d : @World St N) : @World St N :=
  match o with Ret w _ => w | _ => d end.

(** [BulkExtractor(log_cb)] with the engine handing out [first] first. *)
Definition opened (first : Z) : @World (list Event) ToyState :=
  world_of (BulkExtractor_new log_cb (toy_world first)) (toy_world first).

(** Then [close()]. *)
Definition closed (first : Z) : @World (list Event) ToyState :=
  world_of (BulkExtractor_close 4096 (opened first)) (opened first).

(** A body that raises [TypeError] ([bytes] is not writable). *)
Definition body_bytes (self : Z) : @M (list Event) ToyState unit :=
  BulkExtractor_analyze_buf self (PBytes ex_at) ;; mret tt.

Section HandleProps.
Context {St N : Type} `{NativeLib N}.

Implicit Types (w : @World St N) (cb : @Callback St) (body : Z -> @M St N unit).

(** ** Opening *)

Lemma bulk_extractor_open_run cb w :
  bulk_extractor_open cb w =
  let a := w.(w_next) in
  let '(n', h) := nl_open w.(w_native) a in
  @Ret St N PyHandle (set_thunks (delete a (<[a := mkThunk cb 1]> w.(w_thunks)))
        (log_call (NOpen a) (set_native n' (bump_next
          (set_thunks (<[a := mkThunk cb 1]> w.(w_thunks)) w)))))
      (c_void_p_ret h).
Proof.
  unfold bulk_extractor_open, alloc_thunk, native_open, decref, modify, mbind, mret. simpl.
  destruct (nl_open (w_native w) (w_next w)) as [n' h]. simpl.
  rewrite lookup_insert_eq. reflexivity.
Qed.

(** The session opened by [BulkExtractor(cb)] refers to a freed callback object. *)
Lemma new_session_callback_freed cb w w' self h :
  BulkExtractor_new cb w = Ret w' self ->
  w'.(w_objs) !! self = Some (Some h) ->
  exists a, nl_session w'.(w_native) h = Some a /\ w'.(w_thunks) !! a = None.
Proof.
  unfold BulkExtractor_new, gets, set_handle, modify, mbind, mret. simpl.
  rewrite bulk_extractor_open_run. simpl.
  destruct (nl_open (w_native w) (w_next w + 1)) as [n' h0] eqn:Eo.
  intros E. injection E as <- <-. simpl. rewrite lookup_insert_eq.
  unfold c_void_p_ret. case_decide as Hz; [discriminate|]. intros E; injection E as <-.
  exists (w_next w + 1). split.
  - apply (nl_open_fresh _ _ _ _ Eo Hz).
  - apply lookup_delete_eq.
Qed.

(** C1 (code bug: dangling callback): right after [BulkExtractor(cb)] opens
    a session, the [BeCallback] object whose address the library holds for
    that session has been freed: the only reference was the local variable
    of [bulk_extractor_open].  The spec requires the registration to
    outlive the handle. *)
Theorem BulkExtractor_new_frees_callback cb w w' self h :
  BulkExtractor_new cb w = Ret w' self ->
  w'.(w_objs) !! self = Some (Some h) ->
  exists a, nl_session w'.(w_native) h = Some a /\ w'.(w_thunks) !! a = None.
Proof. apply new_session_callback_freed. Qed.

Lemma BulkExtractor_new_handle cb w w' self h :
  BulkExtractor_new cb w = Ret w' self ->
  w'.(w_objs) !! self = Some (Some h) -> 0 < h < 2 ^ 64.
Proof.
  unfold BulkExtractor_new, gets, set_handle, modify, mbind, mret. simpl.
  rewrite bulk_extractor_open_run. simpl.
  destruct (nl_open (w_native w) (w_next w + 1)) as [n' h0] eqn:Eo.
  intros E. injection E as <- <-. simpl. rewrite lookup_insert_eq.
  unfold c_void_p_ret. case_decide as Hz; [discriminate|]. intros E; injection E as <-.
  pose proof (nl_open_range _ _ _ _ Eo). lia.
Qed.

Lemma get_handle_some self w h :
  w.(w_objs) !! self = Some h -> get_handle self w = Ret w h.
Proof. intros E. unfold get_handle. rewrite E. reflexivity. Qed.

(** [BulkExtractor(cb)] in full: the object at [w_next], the callback
    object at the next address, allocated and freed again, one call. *)
Lemma BulkExtractor_new_run cb w n' h :
  nl_open w.(w_native) (w.(w_next) + 1) = (n', h) ->
  BulkExtractor_new cb w =
  Ret (mkWorld w.(w_py) n' (delete (w.(w_next) + 1) w.(w_thunks))
         (<[w.(w_next) := c_void_p_ret h]> w.(w_objs)) (w.(w_next) + 2)
         (w.(w_calls) ++ [NOpen (w.(w_next) + 1)])) w.(w_next).
Proof.
  intros Eo. unfold BulkExtractor_new, gets, set_handle, modify, mbind, mret. simpl.
  rewrite bulk_extractor_open_run. simpl. rewrite Eo.
  unfold set_objs, set_thunks, log_call, set_native, bump_next. simpl.
  rewrite delete_insert_eq. replace (w_next w + 1 + 1) with (w_next w + 2) by lia.
  reflexivity.
Qed.

(** [analyze_buf] on an open object when the engine reports no event:
    one library call, status 0. *)
Lemma analyze_buf_quiet self buf w h a c :
  w.(w_objs) !! self = Some (Some h) ->
  analyze_buf_args (Some h) buf = PyOk c ->
  nl_session w.(w_native) c.(ac_handle) = Some a ->
  nl_scan w.(w_native) c.(ac_handle) c.(ac_buf) = [] ->
  BulkExtractor_analyze_buf self buf w =
  Ret (log_call (NAnalyze c.(ac_handle) c.(ac_buf) c.(ac_len)) w) 0.
Proof.
  intros Hself Hargs Hs Hscan.
  unfold BulkExtractor_analyze_buf, bulk_extractor_analyze_buf, mbind.
  rewrite (get_handle_some _ _ _ Hself), Hargs. simpl.
  unfold native_analyze. rewrite Hs, Hscan. reflexivity.
Qed.

(** Running [analyze_buf] on a fresh object whose scan yields events. *)
Lemma new_then_analyze_uaf cb w w1 self h buf c :
  BulkExtractor_new cb w = Ret w1 self ->
  w1.(w_objs) !! self = Some (Some h) ->
  analyze_buf_args (Some h) buf = PyOk c ->
  nl_scan w1.(w_native) h c.(ac_buf) <> [] ->
  BulkExtractor_analyze_buf self buf w1 = UB UseAfterFree.
Proof.
  intros Hnew Hself Hargs Hscan.
  destruct (new_session_callback_freed cb w w1 self h Hnew Hself) as (a & Hs & Ht).
  pose proof (BulkExtractor_new_handle cb w w1 self h Hnew Hself) as Hr.
  assert (ac_handle c = h) as Hc.
  { destruct (analyze_buf_args_handle _ _ _ Hargs) as [E|(h' & E & Hn)];
      [exact E|injection E as <-; lia]. }
  unfold BulkExtractor_analyze_buf, bulk_extractor_analyze_buf, mbind.
  rewrite (get_handle_some _ _ _ Hself), Hargs. simpl.
  unfold native_analyze. rewrite Hc, Hs.
  destruct (nl_scan (w_native w1) h (ac_buf c)) as [|e evs]; [congruence|].
  simpl. rewrite Ht. reflexivity.
Qed.

(** C2 (code bug: use after free): on an object just opened, any
    [analyze_buf] whose buffer makes the engine call back at least once
    ends in the engine calling a freed [CFUNCTYPE] object. *)
Theorem analyze_buf_use_after_free cb w w1 self h buf c :
  BulkExtractor_new cb w = Ret w1 self ->
  w1.(w_objs) !! self = Some (Some h) ->
  analyze_buf_args (Some h) buf = PyOk c ->
  nl_scan w1.(w_native) h c.(ac_buf) <> [] ->
  BulkExtractor_analyze_buf self buf w1 = UB UseAfterFree.
Proof. apply new_then_analyze_uaf. Qed.

(** ** Closing *)

Lemma close_none self w :
  w.(w_objs) !! self = Some None -> BulkExtractor_close self w = Ret w tt.
Proof.
  intros E. unfold BulkExtractor_close, mbind. rewrite (get_handle_some _ _ _ E).
  reflexivity.
Qed.

Lemma close_ret_objs self w w' :
  BulkExtractor_close self w = Ret w' tt -> w'.(w_objs) !! self = Some None.
Proof.
  unfold BulkExtractor_close, mbind, get_handle.
  destruct (w_objs w !! self) as [[h|]|] eqn:E0;
    [|intros E; injection E as <-; exact E0|discriminate].
  unfold bulk_extractor_close, native_close, mbind.
  destruct (lift (default_arg (Some h)) w) as [w1 p| |]; try discriminate.
  destruct (nl_close (w_native w1) p) as [[n' r]|]; [|discriminate].
  unfold set_handle, modify. intros E. injection E as <-.
  apply lookup_insert_eq.
Qed.

(** C12 (idempotence): calling [close] a second time is a no-op: no call
    into the library, the world unchanged. *)
Theorem close_idempotent self w w1 :
  BulkExtractor_close self w = Ret w1 tt -> BulkExtractor_close self w1 = Ret w1 tt.
Proof.
  intros E. apply close_none, (close_ret_objs self w w1 E).
Qed.

Lemma close_some_run self w h :
  w.(w_objs) !! self = Some (Some h) ->
  BulkExtractor_close self w =
  match default_arg (Some h) with
  | PyRaise e => Exc w e
  | PyOk p =>
      match nl_close w.(w_native) p with
      | None => UB InvalidHandle
      | Some (n', _) =>
          Ret (set_objs (<[self := None]> w.(w_objs)) (log_call (NClose p) (set_native n' w))) tt
      end
  end.
Proof.
  intros E. unfold BulkExtractor_close, mbind. rewrite (get_handle_some _ _ _ E).
  unfold bulk_extractor_close, native_close, mbind, lift.
  destruct (default_arg (Some h)) as [p|e]; [|reflexivity].
  unfold mret. destruct (nl_close (w_native w) p) as [[n' r]|]; reflexivity.
Qed.

(** C31 (functional): closing an open object whose handle survives the
    default int conversion releases its session with exactly one library
    call and leaves [self.handle] at [None]. *)
Theorem close_releases_session self w h a :
  w.(w_objs) !! self = Some (Some h) -> nl_session w.(w_native) h = Some a ->
  0 <= h < 2 ^ 64 -> h < 2 ^ 31 \/ 2 ^ 64 - 2 ^ 31 <= h ->
  exists w', BulkExtractor_close self w = Ret w' tt /\
    w'.(w_objs) !! self = Some None /\ nl_session w'.(w_native) h = None /\
    w'.(w_calls) = w.(w_calls) ++ [NClose h].
Proof.
  intros Hself Hs Hr Hfit. rewrite (close_some_run _ _ _ Hself).
  rewrite (proj2 (default_arg_intact_iff h Hr) Hfit).
  destruct (nl_close_live _ _ _ Hs) as (n' & r & Hc & Hgone). rewrite Hc.
  eexists. split; [reflexivity|]. simpl.
  split; [apply lookup_insert_eq|]. split; [exact Hgone|reflexivity].
Qed.

(** C26 (code bug: leaked session): closing an object whose handle does not
    survive the 32-bit conversion never releases its session: the library
    is called on another pointer and either fails on it or closes some
    other session, while [self.handle] is reset and the session is lost. *)
Theorem close_truncated_handle self w h :
  w.(w_objs) !! self = Some (Some h) -> 2 ^ 31 <= h < 2 ^ 64 - 2 ^ 31 ->
  BulkExtractor_close self w = UB InvalidHandle \/
  exists w', BulkExtractor_close self w = Ret w' tt /\
    w'.(w_objs) !! self = Some None /\
    nl_session w'.(w_native) h = nl_session w.(w_native) h.
Proof.
  intros Hself Hr. rewrite (close_some_run _ _ _ Hself).
  assert (exists p, default_arg (Some h) = PyOk p /\ p <> h) as (p & Hp & Hne).
  { simpl. rewrite decide_True by lia. eexists. split; [reflexivity|].
    intros E. assert (default_arg (Some h) = PyOk h) as Hd.
    { simpl. rewrite decide_True by lia. rewrite E. reflexivity. }
    apply default_arg_intact_iff in Hd; lia. }
  rewrite Hp. destruct (nl_close (w_native w) p) as [[n' r]|] eqn:Hc; [right|left; reflexivity].
  eexists. split; [reflexivity|]. simpl. split; [apply lookup_insert_eq|].
  apply (nl_close_other _ _ _ _ _ Hc). congruence.
Qed.

(** [analyze_buf] on an object whose handle is [None]. *)
Lemma analyze_buf_none_run self w buf c :
  w.(w_objs) !! self = Some None ->
  analyze_buf_args None buf = PyOk c ->
  ac_handle c = 0 /\ BulkExtractor_analyze_buf self buf w = native_analyze c w /\
  BulkExtractor_analyze_buf self buf w = UB InvalidHandle.
Proof.
  intros Hself Hargs.
  assert (ac_handle c = 0) as Hc.
  { destruct (analyze_buf_args_handle _ _ _ Hargs) as [E|(? & E & _)];
      [exact E|discriminate]. }
  assert (BulkExtractor_analyze_buf self buf w = native_analyze c w) as Hrun.
  { unfold BulkExtractor_analyze_buf, bulk_extractor_analyze_buf, mbind.
    rewrite (get_handle_some _ _ _ Hself), Hargs. reflexivity. }
  split; [exact Hc|]. split; [exact Hrun|].
  rewrite Hrun. unfold native_analyze. rewrite Hc, nl_null_invalid. reflexivity.
Qed.

(** C13 (divergence: use after close): [analyze_buf] on a closed object
    raises nothing: it passes NULL to the library as the session handle,
    which is undefined behaviour; the spec requires a [UseAfterCloseError]. *)
Theorem analyze_buf_after_close self w buf c :
  w.(w_objs) !! self = Some None ->
  analyze_buf_args None buf = PyOk c ->
  ac_handle c = 0 /\ BulkExtractor_analyze_buf self buf w = native_analyze c w /\
  BulkExtractor_analyze_buf self buf w = UB InvalidHandle.
Proof. apply analyze_buf_none_run. Qed.

(** [BulkExtractor(cb)] when the library returns NULL. *)
Lemma new_null_run cb w n' :
  nl_open w.(w_native) (w.(w_next) + 1) = (n', 0) ->
  exists w', BulkExtractor_new cb w = Ret w' w.(w_next) /\
    w'.(w_objs) !! w.(w_next) = Some None.
Proof.
  intros Eo. unfold BulkExtractor_new, gets, set_handle, modify, mbind, mret. simpl.
  rewrite bulk_extractor_open_run. simpl. rewrite Eo.
  eexists. split; [reflexivity|]. apply lookup_insert_eq.
Qed.

(** C10 (divergence: no OpenError): when the library cannot open a session
    (NULL), [BulkExtractor(cb)] raises nothing and yields an object whose
    handle is [None], indistinguishable from a closed one. *)
Theorem new_null_handle cb w n' :
  nl_open w.(w_native) (w.(w_next) + 1) = (n', 0) ->
  exists w', BulkExtractor_new cb w = Ret w' w.(w_next) /\
    w'.(w_objs) !! w.(w_next) = Some None.
Proof. apply new_null_run. Qed.

(** [analyze_buf] changes neither the objects, nor the library's
    sessions, nor the [CFUNCTYPE] store, whether it returns or raises. *)
Lemma analyze_buf_frame self buf w r :
  BulkExtractor_analyze_buf self buf w = r ->
  (forall w' z, r = Ret w' z -> same_frame w w') /\
  (forall w' e, r = Exc w' e -> same_frame w w').
Proof.
  intros <-. unfold BulkExtractor_analyze_buf, bulk_extractor_analyze_buf, mbind, get_handle.
  destruct (w_objs w !! self) as [h|];
    [|split; intros ? ? E; [discriminate|injection E as <- _; apply same_frame_refl]].
  unfold lift, mret, mraise.
  destruct (analyze_buf_args h buf) as [c|e0];
    [|split; intros ? ? E; [discriminate|injection E as <- _; apply same_frame_refl]].
  split.
  - intros w' z E. apply native_analyze_frame in E. exact E.
  - intros w' e E. exfalso. exact (native_analyze_not_exc c w w' e E).
Qed.

(** ** The [with] statement *)

(** A body that reaches undefined behaviour ends the [with] statement there. *)
Lemma with_body_ub cb body w w1 self k :
  BulkExtractor_new cb w = Ret w1 self -> body self w1 = UB k ->
  with_bulk_extractor cb body w = UB k.
Proof.
  intros Hnew Hbody. unfold with_bulk_extractor, BulkExtractor_enter, mbind, mret.
  rewrite Hnew, Hbody. reflexivity.
Qed.

(** The outcome of a [with] statement whose body returns or raises and
    whose [__exit__] closes. *)
Lemma with_outcome cb body w w1 self w2 w3 (res : PyResult unit) :
  BulkExtractor_new cb w = Ret w1 self ->
  body self w1 = py_outcome w2 res ->
  BulkExtractor_close self w2 = Ret w3 tt ->
  with_bulk_extractor cb body w = py_outcome w3 res.
Proof.
  intros Hnew Hbody Hclose.
  unfold with_bulk_extractor, BulkExtractor_enter, BulkExtractor_exit, mbind, mret.
  rewrite Hnew, Hbody. destruct res as [[]|e]; simpl; rewrite Hclose; reflexivity.
Qed.

(** C16 (safety: release on every exit path): in [with BulkExtractor(cb) as
    b_e: body], whether the body returns or raises, [__exit__] closes the
    same object the body used, the object's handle ends [None], and the
    body's exception, if any, propagates unchanged. *)
Theorem with_closes_on_every_path cb body w w1 self w2 w3 (res : PyResult unit) :
  BulkExtractor_new cb w = Ret w1 self ->
  body self w1 = py_outcome w2 res ->
  BulkExtractor_close self w2 = Ret w3 tt ->
  with_bulk_extractor cb body w = py_outcome w3 res /\
  w3.(w_objs) !! self = Some None.
Proof.
  intros Hnew Hbody Hclose. split; [|exact (close_ret_objs _ _ _ Hclose)].
  exact (with_outcome _ _ _ _ _ _ _ _ Hnew Hbody Hclose).
Qed.

End HandleProps.

(** ** Witnesses, on the engine of [Engine] *)

Lemma BulkExtractor_new_frees_callback_witness :
  BulkExtractor_new log_cb (toy_world high_handle) = Ret (opened high_handle) 4096 /\
  (opened high_handle).(w_objs) !! 4096 = Some (Some high_handle) /\
  exists a, nl_session (opened high_handle).(w_native) high_handle = Some a /\
    (opened high_handle).(w_thunks) !! a = None.
Proof.
  split; [(vm_compute; reflexivity)|]. split; [(vm_compute; reflexivity)|].
  apply (BulkExtractor_new_frees_callback log_cb (toy_world high_handle) _ 4096);
    (vm_compute; reflexivity).
Defined.

Lemma analyze_buf_use_after_free_witness :
  BulkExtractor_new log_cb (toy_world high_handle) = Ret (opened high_handle) 4096 /\
  (opened high_handle).(w_objs) !! 4096 = Some (Some high_handle) /\
  analyze_buf_args (Some high_handle) (PBytearray ex_at) =
    PyOk (mkAnalyzeCall high_handle ex_at 3) /\
  nl_scan (opened high_handle).(w_native) high_handle ex_at <> [] /\
  BulkExtractor_analyze_buf 4096 (PBytearray ex_at) (opened high_handle) = UB UseAfterFree.
Proof.
  split; [(vm_compute; reflexivity)|]. split; [(vm_compute; reflexivity)|]. split; [(vm_compute; reflexivity)|].
  split; [vm_compute; discriminate|].
  apply (analyze_buf_use_after_free log_cb (toy_world high_handle) (opened high_handle)
           4096 high_handle (PBytearray ex_at) (mkAnalyzeCall high_handle ex_at 3));
    try (vm_compute; reflexivity).
  vm_compute. discriminate.
Defined.

Lemma close_idempotent_witness :
  BulkExtractor_close 4096 (opened low_handle) = Ret (closed low_handle) tt /\
  BulkExtractor_close 4096 (closed low_handle) = Ret (closed low_handle) tt.
Proof.
  split; [(vm_compute; reflexivity)|]. apply (close_idempotent 4096 (opened low_handle)). (vm_compute; reflexivity).
Defined.

Lemma close_releases_session_witness :
  (opened low_handle).(w_objs) !! 4096 = Some (Some low_handle) /\
  nl_session (opened low_handle).(w_native) low_handle = Some 4097 /\
  exists w', BulkExtractor_close 4096 (opened low_handle) = Ret w' tt /\
    w'.(w_objs) !! 4096 = Some None /\ nl_session w'.(w_native) low_handle = None /\
    w'.(w_calls) = (opened low_handle).(w_calls) ++ [NClose low_handle].
Proof.
  split; [(vm_compute; reflexivity)|]. split; [(vm_compute; reflexivity)|].
  apply (close_releases_session 4096 _ low_handle 4097); try (vm_compute; reflexivity);
    unfold low_handle; lia.
Defined.

Lemma close_truncated_handle_witness :
  (opened high_handle).(w_objs) !! 4096 = Some (Some high_handle) /\
  2 ^ 31 <= high_handle < 2 ^ 64 - 2 ^ 31 /\
  (BulkExtractor_close 4096 (opened high_handle) = UB InvalidHandle \/
   exists w', BulkExtractor_close 4096 (opened high_handle) = Ret w' tt /\
     w'.(w_objs) !! 4096 = Some None /\
     nl_session w'.(w_native) high_handle = nl_session (opened high_handle).(w_native) high_handle).
Proof.
  split; [(vm_compute; reflexivity)|]. split; [unfold high_handle; lia|].
  apply close_truncated_handle; [(vm_compute; reflexivity)|unfold high_handle; lia].
Defined.

Lemma analyze_buf_after_close_witness :
  (closed low_handle).(w_objs) !! 4096 = Some None /\
  analyze_buf_args None (PBytearray ex_at) = PyOk (mkAnalyzeCall 0 ex_at 3) /\
  ac_handle (mkAnalyzeCall 0 ex_at 3) = 0 /\
  BulkExtractor_analyze_buf 4096 (PBytearray ex_at) (closed low_handle) =
    native_analyze (mkAnalyzeCall 0 ex_at 3) (closed low_handle) /\
  BulkExtractor_analyze_buf 4096 (PBytearray ex_at) (closed low_handle) = UB InvalidHandle.
Proof.
  split; [(vm_compute; reflexivity)|]. split; [(vm_compute; reflexivity)|].
  apply analyze_buf_after_close; (vm_compute; reflexivity).
Defined.

Lemma new_null_handle_witness :
  nl_open (toy_world 0).(w_native) ((toy_world 0).(w_next) + 1) = (mkToy ∅ 0, 0) /\
  exists w', BulkExtractor_new log_cb (toy_world 0) = Ret w' 4096 /\
    w'.(w_objs) !! 4096 = Some None.
Proof.
  split; [(vm_compute; reflexivity)|]. apply (new_null_handle log_cb (toy_world 0) (mkToy ∅ 0)).
  (vm_compute; reflexivity).
Defined.

Lemma with_closes_on_every_path_witness :
  BulkExtractor_new log_cb (toy_world low_handle) = Ret (opened low_handle) 4096 /\
  body_bytes 4096 (opened low_handle) = py_outcome (opened low_handle) (PyRaise TypeError) /\
  BulkExtractor_close 4096 (opened low_handle) = Ret (closed low_handle) tt /\
  with_bulk_extractor log_cb body_bytes (toy_world low_handle) =
    py_outcome (closed low_handle) (PyRaise TypeError) /\
  (closed low_handle).(w_objs) !! 4096 = Some None.
Proof.
  split; [(vm_compute; reflexivity)|]. split; [(vm_compute; reflexivity)|]. split; [(vm_compute; reflexivity)|].
  apply (with_closes_on_every_path log_cb body_bytes (toy_world low_handle)
           (opened low_handle) 4096 (opened low_handle)); (vm_compute; reflexivity).
Defined.

End Handle.
