(* ===== verification/Isolation.v ===== *)
(** * Two engine handles in one program

    The spec (section 5) asks callers who need parallel scans to create
    independent EngineHandles: one handle's operations must not touch
    another's session.  In the model two [BulkExtractor] objects share
    the world of [Native]: the object store, the library's sessions and
    the trace of calls.  [close] on one object goes through
    [bulk_extractor_close] (lines 20-21), whose handle reaches the library
    through ctypes' 32-bit default conversion ([CTypes.default_arg]).

    The theorems show the two sides of that conversion: an object whose
    handle survives it (the lowest and highest [2^31] addresses) closes its own session only, leaving every other
    object and session as they were; an object whose handle is converted
    into another object's handle closes that other session instead, so the
    other object, still holding its handle, has undefined behaviour on its
    next [analyze_buf], while the first object's session leaks. *)

From stdpp Require Import base list gmap.
From Stdlib Require Import ZArith Lia Strings.Byte.
From S2P Require Import Prelude Demux CTypes Marshal Native Engine Handle.

Open Scope Z_scope.

Module Isolation.

Import Demux CTypes Marshal Native Engine Handle.

(** For the witnesses: two objects opened one after the other on the
    engine of [Engine], at [4096] and [4098]. *)
Definition two_opened : @World (list Event) ToyState :=
  world_of (BulkExtractor_new log_cb (opened low_handle)) (opened low_handle).

(** Two objects whose sessions lie [2^32] bytes apart: the handle of the
    first, [0x100010000], converts to [0x10000], the handle of the second. *)
Definition aliased_world : @World (list Event) ToyState :=
  mkWorld [] (mkToy (<[4295032832 := 4097]> (<[65536 := 4099]> ∅)) 4295036928) ∅
    (<[4096 := Some 4295032832]> (<[4098 := Some 65536]> ∅)) 4100 [].

Section IsolationProps.
Context {St N : Type} `{NativeLib N}.
Implicit Types (w : @World St N).

(** The default conversion gives a 64-bit value. *)
Lemma default_arg_range h p : default_arg (Some h) = PyOk p -> 0 <= p < 2 ^ 64.
Proof.
  unfold default_arg. case_decide; [|discriminate].
  intros E; injection E as <-. apply (wrap_u_range 64); lia.
Qed.

(** C32 (safety, isolation): closing an object whose 64-bit handle
    survives the conversion of [bulk_extractor_close] (it lies in the
    lowest or the highest [2^31] addresses, the handles C27 characterises)
    changes no other object, and no session of the library other than
    its own. *)
Theorem close_isolated s1 s2 w w' h1 :
  s1 <> s2 -> w.(w_objs) !! s1 = Some (Some h1) ->
  0 <= h1 < 2 ^ 64 -> h1 < 2 ^ 31 \/ 2 ^ 64 - 2 ^ 31 <= h1 ->
  BulkExtractor_close s1 w = Ret w' tt ->
  w'.(w_objs) !! s2 = w.(w_objs) !! s2 /\
  forall h, h <> h1 -> nl_session w'.(w_native) h = nl_session w.(w_native) h.
Proof.
  intros Hne Hself Hr Hfit. unfold BulkExtractor_close, mbind.
  rewrite (get_handle_some _ _ _ Hself).
  unfold bulk_extractor_close, native_close, mbind, lift.
  rewrite (proj2 (default_arg_intact_iff h1 Hr) Hfit). unfold mret.
  destruct (nl_close (w_native w) h1) as [[n' r]|] eqn:Hc; [|discriminate].
  unfold set_handle, modify. intros E. injection E as <-. simpl.
  split; [apply lookup_insert_ne; congruence|].
  intros h Hh'. exact (nl_close_other _ _ _ _ _ Hc Hh').
Qed.

(** C22 (code bug: one object closes another's session): when the
    conversion maps the handle of one object onto the handle of another,
    closing the first releases the second's session and leaks its own;
    the second object still holds its handle, and its next [analyze_buf]
    passes the library a pointer that names no session. *)
Theorem close_releases_other s1 s2 w h1 h2 a :
  s1 <> s2 -> w.(w_objs) !! s1 = Some (Some h1) -> w.(w_objs) !! s2 = Some (Some h2) ->
  default_arg (Some h1) = PyOk h2 -> h1 <> h2 -> nl_session w.(w_native) h2 = Some a ->
  exists w', BulkExtractor_close s1 w = Ret w' tt /\
    w'.(w_objs) !! s2 = Some (Some h2) /\ nl_session w'.(w_native) h2 = None /\
    nl_session w'.(w_native) h1 = nl_session w.(w_native) h1 /\
    forall buf c, analyze_buf_args (Some h2) buf = PyOk c ->
      BulkExtractor_analyze_buf s2 buf w' = UB InvalidHandle.
Proof.
  intros Hne H1 H2 Hp Hh Hs.
  destruct (nl_close_live _ _ _ Hs) as (n' & r & Hc & Hgone).
  pose proof (default_arg_range _ _ Hp) as Hr.
  rewrite (close_some_run _ _ _ H1), Hp, Hc.
  eexists. split; [reflexivity|]. simpl.
  assert (<[s1:=None]> (w_objs w) !! s2 = Some (Some h2)) as H2'
    by (rewrite lookup_insert_ne by congruence; exact H2).
  split; [exact H2'|]. split; [exact Hgone|].
  split; [apply (nl_close_other _ _ _ _ _ Hc); congruence|].
  intros buf c Hargs.
  assert (ac_handle c = h2) as Hac.
  { destruct (analyze_buf_args_handle _ _ _ Hargs) as [E|(h & E & Hn)];
      [exact E|injection E as <-; lia]. }
  unfold BulkExtractor_analyze_buf, bulk_extractor_analyze_buf, mbind.
  rewrite (get_handle_some _ _ (Some h2)) by exact H2'.
  rewrite Hargs. simpl. unfold native_analyze. simpl. rewrite Hac, Hgone. reflexivity.
Qed.

End IsolationProps.

(** ** Witnesses *)

Lemma close_isolated_witness :
  (4096 : Z) <> 4098 /\ two_opened.(w_objs) !! 4096 = Some (Some low_handle) /\
  BulkExtractor_close 4096 two_opened =
    Ret (world_of (BulkExtractor_close 4096 two_opened) two_opened) tt /\
  (world_of (BulkExtractor_close 4096 two_opened) two_opened).(w_objs) !! 4098 =
    two_opened.(w_objs) !! 4098.
Proof.
  assert (BulkExtractor_close 4096 two_opened =
    Ret (world_of (BulkExtractor_close 4096 two_opened) two_opened) tt) as Hc
    by (vm_compute; reflexivity).
  split; [lia|]. split; [(vm_compute; reflexivity)|]. split; [exact Hc|].
  apply (close_isolated 4096 4098 two_opened _ low_handle);
    [lia|(vm_compute; reflexivity)|unfold low_handle; lia|left; unfold low_handle; lia|exact Hc].
Defined.

Lemma close_releases_other_witness :
  aliased_world.(w_objs) !! 4096 = Some (Some 4295032832) /\
  aliased_world.(w_objs) !! 4098 = Some (Some 65536) /\
  default_arg (Some 4295032832) = PyOk 65536 /\
  nl_session aliased_world.(w_native) 65536 = Some 4099 /\
  exists w', BulkExtractor_close 4096 aliased_world = Ret w' tt /\
    w'.(w_objs) !! 4098 = Some (Some 65536) /\ nl_session w'.(w_native) 65536 = None /\
    nl_session w'.(w_native) 4295032832 = nl_session aliased_world.(w_native) 4295032832 /\
    forall buf c, analyze_buf_args (Some 65536) buf = PyOk c ->
      BulkExtractor_analyze_buf 4098 buf w' = UB InvalidHandle.
Proof.
  do 4 (split; [(vm_compute; reflexivity)|]).
  apply (close_releases_other 4096 4098 aliased_world 4295032832 65536 4099);
    [lia|(vm_compute; reflexivity)|(vm_compute; reflexivity)|(vm_compute; reflexivity)
    |lia|(vm_compute; reflexivity)].
Defined.

End Isolation.
