(* ===== verification/Lifecycle.v ===== *)
(** * The handle lifecycle as a state machine

    The spec (section 4.4) gives an engine handle three phases, Unopened,
    Open and Closed, with [open], [submit] and [close] as transitions and an
    error for [submit] on a closed handle.  [phase] reads the phase of a
    [BulkExtractor] object off the world of [Native] ([self.handle] absent,
    an int, or [None]); [be_step] is the step relation of the methods a
    caller runs on one object ([close], [__exit__], [analyze_buf]).  The
    theorems prove by rule induction over [be_step] that a closed object
    never reopens and that an open object's handle names a live session,
    and that every step the code takes is a transition of the spec's
    machine, the divergences being those of [Handle].  [eventually] is
    reachability of a set of worlds by method calls, as coqutil's
    small-step combinators define it; with it, closing is live for
    handles that survive the conversion of [bulk_extractor_close] and
    impossible for the others. *)

From stdpp Require Import base list gmap relations.
From Stdlib Require Import ZArith Lia Strings.Byte.
From S2P Require Import Prelude Demux CTypes Marshal Native Engine Handle.

Open Scope Z_scope.

Module Lifecycle.

Import Demux CTypes Marshal Native Engine Handle.

(** The spec's phases and operations. *)
Inductive Phase := Unopened | Open | Closed.

#[export] Instance Phase_eq_dec : EqDecision Phase.
Proof. solve_decision. Defined.

Inductive SpecOp := OpSubmit | OpClose.

(** Section 4.4: [submit] is valid only when open, [close] closes and is a
    no-op when closed; [None] is the spec's error. *)
Definition spec_next (p : Phase) (o : SpecOp) : option Phase :=
  match p, o with
  | Open, OpSubmit => Some Open
  | Open, OpClose => Some Closed
  | Closed, OpClose => Some Closed
  | Closed, OpSubmit => None
  | Unopened, _ => None
  end.

Section Machine.
Context {St N : Type} `{NativeLib N}.

(** The phase of the object at [self]. *)
Definition phase (w : @World St N) (self : Z) : Phase :=
  match w.(w_objs) !! self with
  | None => Unopened
  | Some None => Closed
  | Some (Some _) => Open
  end.

(** One method run on the object [self] that returns or raises. *)
Inductive be_step (self : Z) : SpecOp -> @World St N -> @World St N -> Prop :=
| step_close w w' :
    BulkExtractor_close self w = Ret w' tt -> be_step self OpClose w w'
| step_exit w w' b :
    BulkExtractor_exit self w = Ret w' b -> be_step self OpClose w w'
| step_submit w w' buf r :
    BulkExtractor_analyze_buf self buf w = Ret w' r -> be_step self OpSubmit w w'
| step_submit_exc w w' buf e :
    BulkExtractor_analyze_buf self buf w = Exc w' e -> be_step self OpSubmit w w'.

(** Any number of steps, whatever the operations. *)
Definition be_steps (self : Z) : relation (@World St N) :=
  rtc (fun w w' => exists o, be_step self o w w').

(** An open object's handle names a live session of the library. *)
Definition handle_live (w : @World St N) (self : Z) : Prop :=
  forall h, w.(w_objs) !! self = Some (Some h) -> is_Some (nl_session w.(w_native) h).

(** Liveness of closing: the object is in a world satisfying [P] now, or
    some method call leads to a world from which it eventually is. *)
Inductive eventually (self : Z) (P : @World St N -> Prop) : @World St N -> Prop :=
| eventually_done w : P w -> eventually self P w
| eventually_step w o w' :
    be_step self o w w' -> eventually self P w' -> eventually self P w.

End Machine.

Section Props.
Context {St N : Type} `{NativeLib N}.

Lemma phase_closed (w : @World St N) self :
  w.(w_objs) !! self = Some None -> phase w self = Closed.
Proof. unfold phase. intros ->. reflexivity. Qed.

Lemma close_not_unopened self (w w' : @World St N) :
  BulkExtractor_close self w = Ret w' tt -> phase w self <> Unopened.
Proof.
  unfold phase. intros E Hu. destruct (w_objs w !! self) as [o|] eqn:Eo;
    [destruct o; discriminate|].
  unfold BulkExtractor_close, mbind, get_handle in E. rewrite Eo in E. discriminate.
Qed.

Lemma exit_close self (w w' : @World St N) b :
  BulkExtractor_exit self w = Ret w' b -> BulkExtractor_close self w = Ret w' tt.
Proof.
  unfold BulkExtractor_exit, mbind, mret.
  destruct (BulkExtractor_close self w) as [w1 []| |]; congruence.
Qed.

(** What one step does to the phase: a close closes, a submit leaves the
    phase and the rest of the frame as they were. *)
Lemma be_step_phase self o (w w' : @World St N) :
  be_step self o w w' ->
  match o with
  | OpClose => phase w self <> Unopened /\ phase w' self = Closed
  | OpSubmit => same_frame w w'
  end.
Proof.
  intros Hs. destruct Hs as [w w' Hc|w w' b He|w w' buf r Ha|w w' buf e Ha].
  - split; [exact (close_not_unopened _ _ _ Hc)|].
    apply phase_closed, (close_ret_objs _ _ _ Hc).
  - apply exit_close in He. split; [exact (close_not_unopened _ _ _ He)|].
    apply phase_closed, (close_ret_objs _ _ _ He).
  - exact (proj1 (analyze_buf_frame _ _ _ _ eq_refl) _ _ Ha).
  - exact (proj2 (analyze_buf_frame _ _ _ _ eq_refl) _ _ Ha).
Qed.

Lemma same_frame_phase (w w' : @World St N) self :
  same_frame w w' -> phase w' self = phase w self.
Proof. intros (Ho & _ & _). unfold phase. rewrite Ho. reflexivity. Qed.

(** C17 (refinement): every method run on an open object, and every close,
    moves the object's phase along a transition of the spec's lifecycle:
    submit keeps it open, close (or [__exit__]) closes it, closing a closed
    object leaves it closed. *)
Theorem be_step_refines_spec self o (w w' : @World St N) :
  be_step self o w w' -> phase w self = Open \/ o = OpClose ->
  spec_next (phase w self) o = Some (phase w' self).
Proof.
  intros Hs Hpre. pose proof (be_step_phase _ _ _ _ Hs) as Hp.
  destruct o.
  - destruct Hpre as [Ho|Ho]; [|discriminate].
    rewrite (same_frame_phase _ _ _ Hp), Ho. reflexivity.
  - destruct Hp as [Hn ->]. destruct (phase w self) eqn:E; simpl; congruence.
Qed.

(** C18 (invariant): no sequence of method calls brings a closed object
    back to the open phase. *)
Theorem closed_stays_closed self (w w' : @World St N) :
  be_steps self w w' -> phase w self = Closed -> phase w' self = Closed.
Proof.
  induction 1 as [w|w1 w2 w3 [o Hs] _ IH]; intros Hc; [exact Hc|].
  apply IH. pose proof (be_step_phase _ _ _ _ Hs) as Hp. destruct o.
  - rewrite (same_frame_phase _ _ _ Hp). exact Hc.
  - apply Hp.
Qed.

Lemma phase_closed_iff (w : @World St N) self :
  phase w self = Closed <-> w.(w_objs) !! self = Some None.
Proof.
  unfold phase. destruct (w_objs w !! self) as [[h|]|]; split; congruence.
Qed.

(** The handle an object holds never changes, until it is [None]. *)
Lemma handle_fixed_step self o (w w' : @World St N) h :
  be_step self o w w' ->
  w.(w_objs) !! self = Some (Some h) \/ w.(w_objs) !! self = Some None ->
  w'.(w_objs) !! self = Some (Some h) \/ w'.(w_objs) !! self = Some None.
Proof.
  intros Hs Hh. pose proof (be_step_phase _ _ _ _ Hs) as Hp. destruct o.
  - destruct Hp as (Ho & _ & _). rewrite Ho. exact Hh.
  - right. apply phase_closed_iff, Hp.
Qed.

Lemma handle_fixed_steps self (w w' : @World St N) h :
  be_steps self w w' ->
  w.(w_objs) !! self = Some (Some h) \/ w.(w_objs) !! self = Some None ->
  w'.(w_objs) !! self = Some (Some h) \/ w'.(w_objs) !! self = Some None.
Proof.
  induction 1 as [w|w1 w2 w3 [o Hs] _ IH]; intros Hh; [exact Hh|].
  apply IH, (handle_fixed_step _ _ _ _ _ Hs Hh).
Qed.

(** A [close] of an open object whose handle survives the conversion and
    names a live session is a step to the closed phase. *)
Lemma close_step_live self (w : @World St N) h a :
  w.(w_objs) !! self = Some (Some h) -> 0 <= h < 2 ^ 31 ->
  nl_session w.(w_native) h = Some a ->
  exists w', be_step self OpClose w w' /\ phase w' self = Closed.
Proof.
  intros Hself Hh Hs.
  pose proof (close_some_run _ _ _ Hself) as Hrun.
  rewrite (proj2 (default_arg_intact_iff h ltac:(lia)) ltac:(lia)) in Hrun.
  destruct (nl_close_live _ _ _ Hs) as (n' & r & Hc & _). rewrite Hc in Hrun.
  eexists. split; [apply step_close, Hrun|].
  apply phase_closed_iff. simpl. apply lookup_insert_eq.
Qed.

(** An object just created holds a live session, if any. *)
Lemma new_handle_live cb (w0 w1 : @World St N) self :
  BulkExtractor_new cb w0 = Ret w1 self -> handle_live w1 self.
Proof.
  intros Hnew h Hh. destruct (new_session_callback_freed cb w0 w1 self h Hnew Hh)
    as (a & Ha & _). rewrite Ha. eauto.
Qed.

Lemma handle_live_step self o (w w' : @World St N) :
  be_step self o w w' -> handle_live w self -> handle_live w' self.
Proof.
  intros Hs Hl h Hh. pose proof (be_step_phase _ _ _ _ Hs) as Hp. destruct o.
  - destruct Hp as (Ho & Hn & _). rewrite Hn. apply Hl. rewrite <- Ho. exact Hh.
  - destruct Hp as [_ Hc]. unfold phase in Hc. rewrite Hh in Hc. discriminate.
Qed.

Lemma handle_live_steps self (w w' : @World St N) :
  be_steps self w w' -> handle_live w self -> handle_live w' self.
Proof.
  induction 1 as [w|w1 w2 w3 [o Hs] _ IH]; intros Hl; [exact Hl|].
  apply IH, (handle_live_step _ _ _ _ Hs Hl).
Qed.

(** C19 (invariant): from the moment [BulkExtractor(cb)] returns, through
    any sequence of method calls on the object, an open object's handle
    names a live session of the library. *)
Theorem handle_live_invariant cb (w0 w1 w : @World St N) self :
  BulkExtractor_new cb w0 = Ret w1 self -> be_steps self w1 w -> handle_live w self.
Proof.
  intros Hnew Hsteps. apply (handle_live_steps _ _ _ Hsteps), (new_handle_live _ _ _ _ Hnew).
Qed.

(** C20 (liveness): an object created by [BulkExtractor(cb)] whose handle
    is below [2^31] can be closed from every world any sequence of method
    calls leads to: [close] is then always a step to the closed phase. *)
Theorem closing_always_possible cb (w0 w1 w : @World St N) self h :
  BulkExtractor_new cb w0 = Ret w1 self ->
  w1.(w_objs) !! self = Some (Some h) -> h < 2 ^ 31 ->
  be_steps self w1 w ->
  eventually self (fun w' => phase w' self = Closed) w.
Proof.
  intros Hnew Hself Hh Hsteps.
  pose proof (BulkExtractor_new_handle _ _ _ _ _ Hnew Hself) as Hr.
  pose proof (handle_live_steps _ _ _ Hsteps (new_handle_live _ _ _ _ Hnew)) as Hlive.
  destruct (handle_fixed_steps _ _ _ h Hsteps (or_introl Hself)) as [Ho|Hc].
  - destruct (Hlive h Ho) as [a Ha].
    destruct (close_step_live self w h a Ho ltac:(lia) Ha) as (w' & Hs & Hc).
    apply (eventually_step _ _ _ _ _ Hs), eventually_done, Hc.
  - apply eventually_done, phase_closed_iff, Hc.
Qed.

(** C21 (liveness violated): an open object whose handle the default
    conversion turns into a pointer that names no session can never be
    closed: every [close] is undefined behaviour, so no sequence of
    method calls reaches the closed phase, and the session leaks. *)
Theorem truncated_handle_never_closes self (w : @World St N) h p :
  w.(w_objs) !! self = Some (Some h) -> default_arg (Some h) = PyOk p ->
  nl_session w.(w_native) p = None ->
  ~ eventually self (fun w' => phase w' self = Closed) w.
Proof.
  intros Hself Hp Hs Hev. revert Hself Hs.
  induction Hev as [w Hc|w o w' Hstep _ IH]; intros Hself Hs.
  - apply phase_closed_iff in Hc. congruence.
  - assert (BulkExtractor_close self w = UB InvalidHandle) as Hub.
    { rewrite (close_some_run _ _ _ Hself), Hp, nl_close_invalid by exact Hs.
      reflexivity. }
    destruct Hstep as [w w' Hc|w w' b He|w w' buf r Ha|w w' buf e Ha].
    + congruence.
    + apply exit_close in He. congruence.
    + destruct (proj1 (analyze_buf_frame _ _ _ _ eq_refl) _ _ Ha) as (Ho & Hn & _).
      apply IH; [rewrite Ho; exact Hself|rewrite Hn; exact Hs].
    + destruct (proj2 (analyze_buf_frame _ _ _ _ eq_refl) _ _ Ha) as (Ho & Hn & _).
      apply IH; [rewrite Ho; exact Hself|rewrite Hn; exact Hs].
Qed.

End Props.

(** ** Witnesses, on the engine of [Engine] *)

Lemma be_step_refines_spec_witness :
  be_step 4096 OpClose (opened low_handle) (closed low_handle) /\
  phase (opened low_handle) 4096 = Open /\
  spec_next (phase (opened low_handle) 4096) OpClose = Some (phase (closed low_handle) 4096).
Proof.
  assert (be_step 4096 OpClose (opened low_handle) (closed low_handle)) as Hs
    by (apply step_close; (vm_compute; reflexivity)).
  split; [exact Hs|]. split; [(vm_compute; reflexivity)|].
  apply be_step_refines_spec; [exact Hs|right; (vm_compute; reflexivity)].
Defined.

(** A closed object, then a failed submit and a second close. *)
Lemma closed_stays_closed_witness :
  be_steps 4096 (closed low_handle) (closed low_handle) /\
  phase (closed low_handle) 4096 = Closed /\ phase (closed low_handle) 4096 = Closed.
Proof.
  assert (be_steps 4096 (closed low_handle) (closed low_handle)) as Hs.
  { apply rtc_l with (closed low_handle).
    - exists OpSubmit. apply (step_submit_exc _ _ _ (PBytes ex_at) TypeError). (vm_compute; reflexivity).
    - apply rtc_once. exists OpClose. apply step_close. (vm_compute; reflexivity). }
  split; [exact Hs|]. split; [(vm_compute; reflexivity)|].
  apply (closed_stays_closed 4096 (closed low_handle)); [exact Hs|(vm_compute; reflexivity)].
Defined.

Lemma handle_live_invariant_witness :
  BulkExtractor_new log_cb (toy_world high_handle) = Ret (opened high_handle) 4096 /\
  be_steps 4096 (opened high_handle) (opened high_handle) /\
  handle_live (opened high_handle) 4096.
Proof.
  assert (be_steps 4096 (opened high_handle) (opened high_handle)) as Hs.
  { apply rtc_once. exists OpSubmit.
    apply (step_submit_exc _ _ _ (PBytes ex_at) TypeError). (vm_compute; reflexivity). }
  split; [(vm_compute; reflexivity)|]. split; [exact Hs|].
  apply (handle_live_invariant log_cb (toy_world high_handle) (opened high_handle));
    [(vm_compute; reflexivity)|exact Hs].
Defined.

Lemma closing_always_possible_witness :
  BulkExtractor_new log_cb (toy_world low_handle) = Ret (opened low_handle) 4096 /\
  (opened low_handle).(w_objs) !! 4096 = Some (Some low_handle) /\ low_handle < 2 ^ 31 /\
  be_steps 4096 (opened low_handle) (opened low_handle) /\
  eventually 4096 (fun w' => phase w' 4096 = Closed) (opened low_handle).
Proof.
  assert (be_steps 4096 (opened low_handle) (opened low_handle)) as Hs by apply rtc_refl.
  split; [(vm_compute; reflexivity)|]. split; [(vm_compute; reflexivity)|].
  split; [unfold low_handle; lia|]. split; [exact Hs|].
  apply (closing_always_possible log_cb (toy_world low_handle) (opened low_handle) _ 4096 low_handle);
    [(vm_compute; reflexivity)|(vm_compute; reflexivity)|unfold low_handle; lia|exact Hs].
Defined.

(** The heap-like handle [0x555555555000] reaches [bulk_extractor_close]
    as [0x55555000], which names no session: the object can never be
    closed. *)
Lemma truncated_handle_never_closes_witness :
  (opened high_handle).(w_objs) !! 4096 = Some (Some high_handle) /\
  default_arg (Some high_handle) = PyOk 1431654400 /\
  nl_session (opened high_handle).(w_native) 1431654400 = None /\
  ~ eventually 4096 (fun w' => phase w' 4096 = Closed) (opened high_handle).
Proof.
  split; [(vm_compute; reflexivity)|]. split; [(vm_compute; reflexivity)|].
  split; [(vm_compute; reflexivity)|].
  apply (truncated_handle_never_closes 4096 (opened high_handle) high_handle 1431654400);
    (vm_compute; reflexivity).
Defined.

End Lifecycle.
