(* ===== verification/Dispatch.v ===== *)
(** * One analyze call end to end: the engine's loop over the callback

    Composes the three parts that run during a native analyze call: the
    engine's loop [Native.engine_dispatch] (spec section 5: events in the
    engine's order, synchronously, until a non-zero status), the
    [BeCallback] trampoline of [CTypes] (line 5) and the closure of
    [Demux.wrap_callback] (lines 38-47).  The handlers are the logging
    handlers of [Demux], so that the Python state is the list of events
    the handlers received.

    The theorem shows that, as long as the callback object is alive,
    events of the spec's three kinds reach their handlers once each, in
    the engine's order and with the event's fields, and that every status
    the engine receives from them is 0 (continue).  What the engine does
    after a non-zero status is the engine's choice (spec section 5: the
    status requests, and does not guarantee, an early end), so no theorem
    here rests on the engine stopping. *)

From stdpp Require Import base list gmap.
From Stdlib Require Import ZArith Lia Strings.Byte.
From S2P Require Import Prelude Demux CTypes Native Engine.

Open Scope Z_scope.

Module Dispatch.

Import Demux CTypes Native Engine.

(** The typed event a raw event of the engine carries, in the spec's
    terms: its arguments convert and its flag is one of the three kinds. *)
Definition raw_event (c : CRawArgs) : option Event := convert_args c ≫= spec_classify.

(** For the witnesses: a world whose callback object at [4097] is alive and logs. *)
Definition live_world : @World (list Event) ToyState :=
  mkWorld [] (mkToy ∅ 65536) {[4097 := mkThunk log_cb 1]} ∅ 4098 [].

(** A histogram event and a carve event. *)
Definition ev_hist : CRawArgs := mkCRawArgs 2 7 ex_recorder ex_pos ex_ctx 1 CNull 0.
Definition ev_carve : CRawArgs := mkCRawArgs 4 0 ex_recorder ex_pos ex_ctx 1 ex_recorder 1.
Section Dispatch.
Context {N : Type} `{NativeLib N}.
Implicit Types (w : @World (list Event) N).

Lemma set_py_id w : set_py w.(w_py) w = w.
Proof. destruct w; reflexivity. Qed.

Lemma thunks_set_py w st : (set_py st w).(w_thunks) = w.(w_thunks).
Proof. reflexivity. Qed.

(** A flag the spec classifies is one of the three constants. *)
Lemma spec_classify_some a e :
  spec_classify a = Some e ->
  a.(flag) = FLAG_FEATURE \/ a.(flag) = FLAG_HISTOGRAM \/
  a.(flag) = FLAG_CARVE \/ Z.land a.(flag) 7 = 0.
Proof.
  unfold spec_classify.
  destruct (Z.eqb_spec a.(flag) FLAG_FEATURE); [auto|].
  destruct (Z.eqb_spec a.(flag) FLAG_HISTOGRAM); [auto|].
  destruct (Z.eqb_spec a.(flag) FLAG_CARVE); [auto|discriminate].
Qed.

(** The trampoline on an event of a known kind logs it and answers 0. *)
Lemma trampoline_log_event st c e :
  raw_event c = Some e -> trampoline log_cb st c = (st ++ [e], CRet 0).
Proof.
  unfold raw_event, trampoline.
  destruct (convert_args c) as [r|]; simpl; [|discriminate].
  intros Hc. unfold log_cb.
  rewrite (wrap_callback_spec_dispatch log_feature log_histogram log_carve st r
             (spec_classify_some _ _ Hc)), Hc.
  destruct e; reflexivity.
Qed.

(** One delivered event: the engine goes on with the log extended. *)
Lemma dispatch_cons_event a t c evs w e :
  w.(w_thunks) !! a = Some t -> t.(th_cb) = log_cb -> raw_event c = Some e ->
  engine_dispatch a (c :: evs) w = engine_dispatch a evs (set_py (w.(w_py) ++ [e]) w).
Proof.
  intros Ht Hcb He. simpl. rewrite Ht, Hcb, (trampoline_log_event _ _ _ He).
  reflexivity.
Qed.

(** Events of the spec's kinds, delivered in order, each logged once. *)
Lemma dispatch_prefix a t pre rest w :
  w.(w_thunks) !! a = Some t -> t.(th_cb) = log_cb ->
  Forall (fun c => is_Some (raw_event c)) pre ->
  engine_dispatch a (pre ++ rest) w =
  engine_dispatch a rest (set_py (w.(w_py) ++ omap raw_event pre) w).
Proof.
  intros Ht Hcb Hpre. revert w Ht.
  induction Hpre as [|c pre [e He] _ IH]; intros w Ht.
  - simpl. rewrite app_nil_r, set_py_id. reflexivity.
  - simpl app. rewrite (dispatch_cons_event a t c (pre ++ rest) w e Ht Hcb He).
    rewrite IH by (rewrite thunks_set_py; exact Ht).
    simpl. rewrite He, <- app_assoc. reflexivity.
Qed.

End Dispatch.

Section DispatchProps.
Context {N : Type} `{NativeLib N}.
Implicit Types (w : @World (list Event) N).

(** C11 (functional, ordering): while the callback object is alive, an
    analyze call whose events are all of the spec's three kinds calls
    one handler per event, in the engine's order, with the event's
    fields, and returns 0. *)
Theorem dispatch_in_order a t evs w :
  w.(w_thunks) !! a = Some t -> t.(th_cb) = log_cb ->
  Forall (fun c => is_Some (raw_event c)) evs ->
  engine_dispatch a evs w = Ret (set_py (w.(w_py) ++ omap raw_event evs) w) 0.
Proof.
  intros Ht Hcb Hevs.
  rewrite <- (app_nil_r evs) at 1. rewrite (dispatch_prefix a t evs [] w Ht Hcb Hevs).
  reflexivity.
Qed.

End DispatchProps.

(** ** Witnesses *)

Lemma dispatch_in_order_witness :
  live_world.(w_thunks) !! 4097 = Some (mkThunk log_cb 1) /\
  (mkThunk log_cb 1).(th_cb) = log_cb /\
  Forall (fun c => is_Some (raw_event c)) [ev_hist; ev_carve] /\
  engine_dispatch 4097 [ev_hist; ev_carve] live_world =
    Ret (set_py (live_world.(w_py) ++ omap raw_event [ev_hist; ev_carve]) live_world) 0.
Proof.
  assert (Forall (fun c => is_Some (raw_event c)) [ev_hist; ev_carve]) as Hf
    by (repeat constructor; eexists; reflexivity).
  split; [reflexivity|]. split; [reflexivity|]. split; [exact Hf|].
  apply (dispatch_in_order 4097 (mkThunk log_cb 1)); [reflexivity|reflexivity|exact Hf].
Defined.

End Dispatch.
