(* ===== verification/Main.v ===== *)
(** * The demo driver [main]

    Models lines 58-83 of [src/python/module/modbulk_extractor.py]: the
    four handlers [main] defines, and its two [with] blocks, the first
    registering [raw_callback] directly as the eight-argument callable, the
    second the closure [wrap_callback] builds from the three typed
    handlers; each block submits the same text.  The handlers print; the
    Python state is the list of lines printed, each line the values the
    [print] call formats ([Line]), so that what [main] prints and in which
    order is part of the model while the formatting of [str] is not.

    The theorems run [main] on any library satisfying [NativeLib]: when
    the library opens a session and reports an event on the demo text,
    [main] ends in the use after free of [Handle] on its first event, before
    anything is printed; when it cannot open a session, [main] passes NULL
    to the library; when it opens sessions and reports nothing, [main]
    prints nothing and makes six library calls in a fixed order, so the
    demo prints something only if it has undefined behaviour.  The carve
    handler calls [len] on its data, which raises on the [None] a NULL
    pointer becomes. *)

From Stdlib Require Import Strings.String Strings.Ascii.
From stdpp Require Import base list gmap.
From Stdlib Require Import ZArith Lia Strings.Byte.
From S2P Require Import Prelude Demux CTypes Loader Utf8 Marshal Native Engine Handle.

Open Scope Z_scope.

Module Main.

Import Demux CTypes Loader Utf8 Marshal Native Engine Handle.

(** One line of output, by the [print] call that writes it. *)
Inductive Line :=
| RawLine (flag arg : Z) (recorder_name pos feature : PyVal) (feature_len : Z)
    (context : PyVal) (context_len : Z)
| FeatureLine (recorder_name feature context : PyVal)
| HistogramLine (recorder_name feature count : PyVal)
| CarveLine (recorder_name carved_filename : PyVal) (length : Z).

#[export] Instance Line_eq_dec : EqDecision Line.
Proof. solve_decision. Defined.

(** What [main] has printed so far. *)
Abbreviation Stdout := (list Line).

(** [len(v)] on a value the trampoline produced: [bytes] have a length,
    [None] and ints raise [TypeError]. *)
Definition py_len_val (v : PyVal) : PyResult Z :=
  match v with
  | PyBytes bs => PyOk (Z.of_nat (length bs))
  | _ => PyRaise TypeError
  end.

(** Lines 59-64: print every argument, by name, and return 0. *)
Definition raw_callback : @Callback Stdout :=
  fun out a =>
    (out ++ [RawLine a.(flag) a.(arg) a.(recorder_name) a.(pos) a.(feature)
               a.(feature_len) a.(context) a.(context_len)], PyOk (PyInt 0)).

(** Lines 66-68. *)
Definition feature_callback : @Handler Stdout :=
  fun out recorder_name pos feature context =>
    (out ++ [FeatureLine recorder_name feature context], PyOk (PyInt 0)).

(** Lines 69-71. *)
Definition histogram_callback : @Handler Stdout :=
  fun out recorder_name pos feature count =>
    (out ++ [HistogramLine recorder_name feature count], PyOk (PyInt 0)).

(** Lines 72-74: the arguments of [print] are evaluated first, so when
    [len] raises nothing is printed. *)
Definition carve_callback : @Handler Stdout :=
  fun out recorder_name pos carved_filename carved_data =>
    match py_len_val carved_data with
    | PyOk n => (out ++ [CarveLine recorder_name carved_filename n], PyOk (PyInt 0))
    | PyRaise e => (out, PyRaise e)
    end.

(** Lines 79-80. *)
Definition cb : @Callback Stdout :=
  wrap_callback feature_callback histogram_callback carve_callback.

(** The text both blocks submit, as the code points of a Python [str]. *)
Definition demo_text : PyStr :=
  map (fun c => Z.of_nat (nat_of_ascii c))
    (list_ascii_of_string "ABCDEFG  demo@api.com Just a demo 617-555-1212 ok!").

(** Its UTF-8 encoding, which is its ASCII bytes. *)
Definition demo_bytes : list byte :=
  map (fun c => byte_of_Z (Z.of_nat (nat_of_ascii c)))
    (list_ascii_of_string "ABCDEFG  demo@api.com Just a demo 617-555-1212 ok!").

Section Driver.
Context {N : Type} `{NativeLib N}.

(** Lines 77 and 83: [b_e.analyze_buf(...)], its result discarded. *)
Definition analyze_demo (b_e : Z) : @M Stdout N unit :=
  BulkExtractor_analyze_buf b_e (PStr demo_text) ;; mret tt.

(** Lines 76-83. *)
Definition main : @M Stdout N unit :=
  with_bulk_extractor raw_callback analyze_demo ;;
  with_bulk_extractor cb analyze_demo.

(** Executing the file: lines 7-10 run first, then lines 85-86 call
    [main] when [__name__ == "__main__"] ([as_script]); [found] says
    whether the shared object loads. *)
Definition run_module (found as_script : bool) : @M Stdout N unit :=
  _ <- lift (module_init found) ;;
  if as_script then main else mret tt.

End Driver.

(** A world for [main] on the engine of [Engine], nothing printed yet. *)
Definition demo_world (first_handle : Z) : @World Stdout ToyState :=
  mkWorld [] (mkToy ∅ first_handle) ∅ ∅ 4096 [].

(** ** Properties *)

Lemma demo_text_utf8 : encode_text (PStr demo_text) = PyOk (PBytearray demo_bytes).
Proof. vm_compute. reflexivity. Qed.

Lemma demo_len : Z.of_nat (length demo_bytes) = 50.
Proof. reflexivity. Qed.

(** The native call the demo text produces, for any handle [c_void_p]
    accepts. *)
Lemma demo_args handle h :
  c_void_p_arg handle = PyOk h ->
  analyze_buf_args handle (PStr demo_text) = PyOk (mkAnalyzeCall h demo_bytes 50).
Proof.
  intros Hh. unfold analyze_buf_args. rewrite demo_text_utf8.
  rewrite py_bind_ok, from_buffer_bytearray, py_bind_ok, Hh.
  reflexivity.
Qed.

Section MainProps.
Context {N : Type} `{NativeLib N}.
Implicit Types (w : @World Stdout N).

(** The first block's body, when it reaches undefined behaviour, ends
    [main] there. *)
Lemma main_first_block_ub w w1 self k :
  BulkExtractor_new raw_callback w = Ret w1 self ->
  BulkExtractor_analyze_buf self (PStr demo_text) w1 = UB k ->
  main w = UB k.
Proof.
  intros Hnew Hub. unfold main, mbind.
  rewrite (with_body_ub raw_callback analyze_demo w w1 self k Hnew); [reflexivity|].
  unfold analyze_demo, mbind. rewrite Hub. reflexivity.
Qed.

(** C3 (code bug, reached by the demo): when the library opens a session
    and reports at least one event on the demo text, [main] never prints
    anything: the first event makes the library call the freed
    [raw_callback] trampoline. *)
Theorem main_use_after_free w n' h :
  nl_open w.(w_native) (w.(w_next) + 1) = (n', h) -> h <> 0 ->
  nl_scan n' h demo_bytes <> [] ->
  main w = UB UseAfterFree.
Proof.
  intros Eo Hz Hscan.
  pose proof (nl_open_range _ _ _ _ Eo) as Hr.
  destruct (BulkExtractor_new raw_callback w) as [w1 self| |] eqn:Hnew.
  2-3: revert Hnew; unfold BulkExtractor_new, gets, modify, mbind, mret;
       rewrite bulk_extractor_open_run; simpl; rewrite Eo; discriminate.
  assert (self = w.(w_next) /\ w1.(w_objs) !! self = Some (Some h) /\ w1.(w_native) = n')
    as (-> & Hself & Hn).
  { revert Hnew. unfold BulkExtractor_new, gets, set_handle, modify, mbind, mret. simpl.
    rewrite bulk_extractor_open_run. simpl. rewrite Eo. intros E. injection E as <- <-.
    simpl. unfold c_void_p_ret. rewrite decide_False by exact Hz.
    split; [reflexivity|]. split; [apply lookup_insert_eq|reflexivity]. }
  apply (main_first_block_ub _ _ _ _ Hnew).
  apply (new_then_analyze_uaf raw_callback w w1 _ h _ (mkAnalyzeCall h demo_bytes 50) Hnew Hself).
  - apply demo_args. simpl. rewrite decide_True by lia. reflexivity.
  - simpl. rewrite Hn. exact Hscan.
Qed.

(** C14 (divergence, reached by the demo): when the library cannot open a
    session, [main] raises no error: the first block's [analyze_buf]
    passes NULL as the session handle, undefined behaviour in the
    library. *)
Theorem main_null_open w n' :
  nl_open w.(w_native) (w.(w_next) + 1) = (n', 0) ->
  main w = UB InvalidHandle.
Proof.
  intros Eo. destruct (new_null_run raw_callback w n' Eo) as (w1 & Hnew & Hself).
  apply (main_first_block_ub _ _ _ _ Hnew).
  apply (analyze_buf_none_run _ _ _ (mkAnalyzeCall 0 demo_bytes 50) Hself).
  apply demo_args. reflexivity.
Qed.

(** One [with] block of [main] on a library that opens a session with a
    handle below [2^31] and reports no event on the demo text: nothing is
    printed, the callback object is freed, the object ends closed, and
    the library is called three times, in order. *)
Lemma demo_block_quiet cb0 w n' h n'' r :
  nl_open w.(w_native) (w.(w_next) + 1) = (n', h) -> 0 < h < 2 ^ 31 ->
  nl_scan n' h demo_bytes = [] -> nl_close n' h = Some (n'', r) ->
  with_bulk_extractor cb0 analyze_demo w =
  Ret (mkWorld w.(w_py) n'' (delete (w.(w_next) + 1) w.(w_thunks))
         (<[w.(w_next) := None]> w.(w_objs)) (w.(w_next) + 2)
         (w.(w_calls) ++ [NOpen (w.(w_next) + 1); NAnalyze h demo_bytes 50; NClose h])) tt.
Proof.
  intros Eo Hh Hscan Hc.
  pose proof (BulkExtractor_new_run cb0 w n' h Eo) as Hnew.
  destruct (nl_open_fresh _ _ _ _ Eo ltac:(lia)) as [_ Hs].
  unfold c_void_p_ret in Hnew. rewrite decide_False in Hnew by lia.
  eapply (with_outcome cb0 analyze_demo w _ w.(w_next) _ _ (PyOk tt) Hnew).
  - unfold analyze_demo, mbind.
    rewrite (analyze_buf_quiet _ _ _ h (w.(w_next) + 1) (mkAnalyzeCall h demo_bytes 50)).
    + reflexivity.
    + simpl. apply lookup_insert_eq.
    + apply demo_args. simpl. rewrite decide_True by lia. reflexivity.
    + simpl. exact Hs.
    + simpl. exact Hscan.
  - rewrite (close_some_run _ _ h) by (simpl; apply lookup_insert_eq).
    rewrite (proj2 (default_arg_intact_iff h ltac:(lia)) ltac:(lia)). simpl.
    rewrite Hc. unfold set_objs, log_call, set_native. simpl.
    rewrite insert_insert_eq, <- !app_assoc. reflexivity.
Qed.

(** C15 (functional, the whole demo): on a library that hands out handles
    below [2^31] and reports no event on the demo text, [main] returns
    having printed nothing, with both objects closed, after exactly six
    library calls in this order: open, analyze, close for the first
    block, then for the second. *)
Theorem main_quiet w n1 h1 n1' r1 n2 h2 :
  nl_open w.(w_native) (w.(w_next) + 1) = (n1, h1) -> 0 < h1 < 2 ^ 31 ->
  nl_scan n1 h1 demo_bytes = [] -> nl_close n1 h1 = Some (n1', r1) ->
  nl_open n1' (w.(w_next) + 3) = (n2, h2) -> 0 < h2 < 2 ^ 31 ->
  nl_scan n2 h2 demo_bytes = [] ->
  exists w', main w = Ret w' tt /\ w'.(w_py) = w.(w_py) /\
    w'.(w_calls) = w.(w_calls) ++
      [NOpen (w.(w_next) + 1); NAnalyze h1 demo_bytes 50; NClose h1;
       NOpen (w.(w_next) + 3); NAnalyze h2 demo_bytes 50; NClose h2] /\
    w'.(w_objs) !! w.(w_next) = Some None /\ w'.(w_objs) !! (w.(w_next) + 2) = Some None.
Proof.
  intros Eo1 Hh1 Hs1 Hc1 Eo2 Hh2 Hs2.
  destruct (nl_open_fresh _ _ _ _ Eo2 ltac:(lia)) as [_ Hlive].
  destruct (nl_close_live _ _ _ Hlive) as (n2' & r2 & Hc2 & _).
  unfold main, mbind. rewrite (demo_block_quiet raw_callback w n1 h1 n1' r1 Eo1 Hh1 Hs1 Hc1).
  rewrite (demo_block_quiet cb _ n2 h2 n2' r2); simpl;
    [|replace (w_next w + 2 + 1) with (w_next w + 3) by lia; exact Eo2|lia|exact Hs2|exact Hc2].
  eexists. split; [reflexivity|]. simpl. split; [reflexivity|].
  split; [replace (w_next w + 2 + 1) with (w_next w + 3) by lia;
         rewrite <- app_assoc; reflexivity|].
  split; [rewrite lookup_insert_ne by lia; apply lookup_insert_eq|].
  apply lookup_insert_eq.
Qed.

(** Executing the file first loads
    the library; when it cannot be loaded, [OSError] propagates before
    anything is printed or called, whether the file is imported or run;
    imported, the file makes no call; run as a script, it is [main]. *)
Theorem run_module_cases w found as_script :
  run_module found as_script w =
  if found then (if as_script then main w else Ret w tt) else Exc w OSError.
Proof. destruct found, as_script; reflexivity. Qed.

End MainProps.

(** C34 (code bug in [main]): a carve event whose data pointer is NULL
    reaches [carve_callback] as [None]; [len(None)] raises [TypeError],
    ctypes ignores it, nothing is printed and the engine gets no defined
    status. *)
Theorem carve_callback_null_data out fl ar rn ps ct l1 l2 r p x :
  Z.testbit fl 0 = false -> Z.testbit fl 1 = false -> Z.testbit fl 2 = true ->
  z_get rn = Some r -> z_get ps = Some p -> z_get ct = Some x ->
  trampoline cb out (mkCRawArgs fl ar rn ps CNull l1 ct l2) = (out, CUndef).
Proof.
  intros H0 H1 H2 Hr Hp Hx. unfold trampoline, convert_args. simpl.
  rewrite Hr, Hp, Hx. simpl. unfold cb.
  rewrite (wrap_callback_carve_slots feature_callback histogram_callback carve_callback)
    by assumption.
  reflexivity.
Qed.

(** ** Witnesses, on the engine of [Engine] *)

Lemma main_use_after_free_witness :
  nl_open (demo_world high_handle).(w_native) ((demo_world high_handle).(w_next) + 1) =
    ((nl_open (demo_world high_handle).(w_native) 4097).1, high_handle) /\
  high_handle <> 0 /\
  nl_scan (nl_open (demo_world high_handle).(w_native) 4097).1 high_handle demo_bytes <> [] /\
  main (demo_world high_handle) = UB UseAfterFree.
Proof.
  split; [(vm_compute; reflexivity)|]. split; [vm_compute; discriminate|].
  split; [vm_compute; discriminate|].
  apply (main_use_after_free (demo_world high_handle)
           (nl_open (demo_world high_handle).(w_native) 4097).1 high_handle);
    [(vm_compute; reflexivity)|vm_compute; discriminate ..].
Defined.

Lemma main_null_open_witness :
  nl_open (demo_world 0).(w_native) ((demo_world 0).(w_next) + 1) = (mkToy ∅ 0, 0) /\
  main (demo_world 0) = UB InvalidHandle.
Proof.
  split; [(vm_compute; reflexivity)|].
  apply (main_null_open (demo_world 0) (mkToy ∅ 0)). (vm_compute; reflexivity).
Defined.

Lemma carve_callback_null_data_witness :
  Z.testbit 4 0 = false /\ Z.testbit 4 1 = false /\ Z.testbit 4 2 = true /\
  z_get ex_recorder = Some (PyBytes [Byte.x72]) /\ z_get ex_pos = Some (PyBytes [Byte.x30]) /\
  z_get ex_ctx = Some (PyBytes [Byte.x66]) /\
  trampoline cb [] (mkCRawArgs 4 0 ex_recorder ex_pos CNull 0 ex_ctx 1) = ([], CUndef).
Proof.
  do 6 (split; [reflexivity|]).
  eapply carve_callback_null_data; reflexivity.
Defined.

(** The whole demo on the engine that never reports an event. *)
Lemma main_quiet_witness :
  let w := demo_world low_handle in
  @nl_open _ quiet_native w.(w_native) (w.(w_next) + 1) =
    (mkToy {[65536 := 4097]} 69632, 65536) /\ 0 < 65536 < 2 ^ 31 /\
  @nl_scan _ quiet_native (mkToy {[65536 := 4097]} 69632) 65536 demo_bytes = [] /\
  @nl_close _ quiet_native (mkToy {[65536 := 4097]} 69632) 65536 = Some (mkToy ∅ 69632, 0) /\
  @nl_open _ quiet_native (mkToy ∅ 69632) (w.(w_next) + 3) =
    (mkToy {[69632 := 4099]} 73728, 69632) /\ 0 < 69632 < 2 ^ 31 /\
  @nl_scan _ quiet_native (mkToy {[69632 := 4099]} 73728) 69632 demo_bytes = [] /\
  exists w', @main _ quiet_native w = Ret w' tt /\ w'.(w_py) = w.(w_py) /\
    w'.(w_calls) = w.(w_calls) ++
      [NOpen (w.(w_next) + 1); NAnalyze 65536 demo_bytes 50; NClose 65536;
       NOpen (w.(w_next) + 3); NAnalyze 69632 demo_bytes 50; NClose 69632] /\
    w'.(w_objs) !! w.(w_next) = Some None /\ w'.(w_objs) !! (w.(w_next) + 2) = Some None.
Proof.
  intros w. do 7 (split; [(vm_compute; reflexivity) || lia|]).
  apply (@main_quiet _ quiet_native w (mkToy {[65536 := 4097]} 69632) 65536 (mkToy ∅ 69632) 0
           (mkToy {[69632 := 4099]} 73728) 69632);
    first [(vm_compute; reflexivity) | lia].
Defined.

End Main.
